(** * AcoustiCar front end: the application state store and the socket layer

    A shallow embedding of [frontend/src/context/AudioContext.js] (the
    reducer-backed store and its telemetry message handler) and of
    [frontend/src/context/WebSocketContext.js] (the two socket channels, the
    reconnect scheduler, the command senders and the periodic ping), followed
    by the properties of the specification stated over that embedding.

    Conventions of the embedding:
    - a JavaScript value that travels through the store or over the wire is a
      [JS.value]; objects are finite maps from property names to values;
    - numbers that the code only stores and forwards are rationals (every
      numeric literal of the source is one) or one of the three non-finite
      numbers, which [parseInt] and [parseFloat] can put into the pages'
      state; the one computation on numbers, the reconnect delay, is on
      integers, where doubles are exact;
    - console output, toasts, socket writes and timer calls are recorded in
      chronological order in a trace of [effect]s;
    - React state setters and reducer dispatches are applied at once: every
      handler runs to completion before the next event, and the reducer is
      pure, so the queued updates give the same state. *)

From stdpp Require Import gmap strings list fin_maps pretty.
From Stdlib Require Import ZArith QArith Lia.

Set Warnings "-register-all".
Local Open Scope string_scope.

(** ** JavaScript values *)

Module JS.

(** The numbers that are no rational: [NaN], [Infinity], [-Infinity]. *)
Inductive nonfinite := NaN | PosInfinity | NegInfinity.

Inductive value :=
| JUndefined
| JNull
| JBool (b : bool)
| JNum (q : Q)
| JStr (s : string)
| JArr (elems : list value)
| JObj (props : gmap string value)
| JNonFinite (n : nonfinite).

(** An object literal [{k1: v1, ..., kn: vn}]: properties are defined from
    left to right, a later one overriding an earlier one of the same name. *)
Definition obj (l : list (string * value)) : gmap string value :=
  foldl (fun m kv => <[kv.1 := kv.2]> m) ∅ l.

Definition chars (s : string) : list value :=
  (fun c => JStr (String c EmptyString)) <$> String.list_ascii_of_string s.

Definition indexed (l : list value) : gmap string value :=
  list_to_map (imap (fun i x => (pretty i, x)) l).

(** The own enumerable properties that a spread [...v] copies: those of an
    object, the index properties of an array or of a string, and none of
    [undefined], [null], a boolean or a number. *)
Definition own_props (v : value) : gmap string value :=
  match v with
  | JObj m => m
  | JArr l => indexed l
  | JStr s => indexed (chars s)
  | _ => ∅
  end.

(** [{...a, ...b}] where [a] is already an object: the properties of [b]
    override those of [a], every other property of [a] is kept. *)
Definition spread (a : gmap string value) (b : value) : gmap string value :=
  own_props b ∪ a.

(** A property read [v.k] for the names the source reads ([type], [data],
    [message], [acoustic_profile], [active_connections]): none of them is a
    built-in property of arrays, strings, numbers or booleans, so the read
    gives the own property of an object, [undefined] on any other value, and
    raises a TypeError ([None]) on [null] and [undefined]. *)
Definition get_field (v : value) (k : string) : option value :=
  match v with
  | JUndefined | JNull => None
  | JObj m => Some (default JUndefined (m !! k))
  | _ => Some JUndefined
  end.

(** [arr.length] of an array value. *)
Definition array_length (v : value) : option nat :=
  match v with
  | JArr l => Some (length l)
  | _ => None
  end.

(** The document that the text [JSON.stringify(v)] denotes: [None] when the
    call returns [undefined]; properties whose value is [undefined] are
    left out, [undefined] array elements become [null], and a number that
    is not finite is written as [null]. The values here are finite trees
    without functions, symbols or [toJSON], so the call never raises. *)
Fixpoint JSON_stringify (v : value) : option value :=
  match v with
  | JUndefined => None
  | JNonFinite _ => Some JNull
  | JArr l => Some (JArr (map (fun x => default JNull (JSON_stringify x)) l))
  | JObj m => Some (JObj (omap JSON_stringify m))
  | _ => Some v
  end.

(** Strict equality with a string literal, as a [case 'lit':] label does. *)
Definition is_str (v : value) (lit : string) : bool :=
  match v with
  | JStr s => String.eqb s lit
  | _ => false
  end.

End JS.

Import JS.

(** ** Observable effects *)

(** What [socket.send(data)] is given: a plain string, or the text of a JSON
    document (kept as the document it denotes). *)
Inductive frame :=
| Text (s : string)
| JsonText (doc : value).

Definition stringified (v : value) : frame :=
  match JSON_stringify v with
  | Some doc => JsonText doc
  | None => Text "undefined"
  end.

Inductive effect :=
| console_log (args : list value)
| console_warn (msg : string)
| console_error (msg : string)
| toast_success (msg : value)
| toast_error (msg : value)
| ws_send (socket : nat) (data : frame)
| set_timeout (id : nat) (delay : Z)
| clear_timeout (id : nat).

(** A handler body either completes or raises; the state reached so far is
    kept in both cases, as in JavaScript. *)
Inductive outcome (S : Type) :=
| Done (s : S)
| Thrown (s : S).
Arguments Done {S} s.
Arguments Thrown {S} s.

Definition final {S : Type} (o : outcome S) : S :=
  match o with Done s | Thrown s => s end.

(** [try { body } catch (error) { handler }] *)
Definition try_catch {S : Type} (body : S -> outcome S) (handler : S -> S) (s : S) : S :=
  match body s with
  | Done s' => s'
  | Thrown s' => handler s'
  end.

(** ** The application state store: [AudioContext.js] *)

Module AudioContext.

(** The store object. Its set of keys is fixed by [initialState] and kept by
    every reducer case (each one spreads [...state] and overwrites named
    keys), hence a record. A field that a case overwrites with
    [action.payload] can hold any value; [userPreferences] and
    [realTimeData] are only ever rebuilt by an object spread, so they are
    always objects. *)
Record State := mkState {
  isConnected : value;
  isAnalyzing : value;
  isProcessing : value;
  audioData : value;
  analysisResults : value;
  eqProfile : value;
  soundstageProfile : value;
  userPreferences : gmap string value;
  frequencyBands : value;
  eqGains : value;
  realTimeData : gmap string value
}.

Definition int (z : Z) : value := JNum (inject_Z z).
Definition dec (n : Z) (d : positive) : value := JNum (n # d).

Definition initialState : State := {|
  isConnected := JBool false;
  isAnalyzing := JBool false;
  isProcessing := JBool false;
  audioData := JNull;
  analysisResults := JNull;
  eqProfile := JNull;
  soundstageProfile := JNull;
  userPreferences := obj [
    ("bass_preference", int 0);
    ("treble_preference", int 0);
    ("vocal_clarity", int 0);
    ("soundstage_width", dec 1 2);
    ("height_preference", dec 1 2);
    ("depth_preference", dec 1 2);
    ("music_genre", JStr "general");
    ("listening_environment", JStr "car");
    ("speaker_count", int 2);
    ("subwoofer_present", JBool false);
    ("amplifier_power", int 50);
    ("cabin_size", JStr "medium") ];
  frequencyBands := JArr [
    int 20; int 25; dec 63 2; int 40; int 50; int 63; int 80; int 100;
    int 125; int 160; int 200; int 250; int 315; int 400; int 500;
    int 630; int 800; int 1000; int 1250; int 1600; int 2000; int 2500;
    int 3150; int 4000; int 5000; int 6300; int 8000;
    int 10000; int 12500; int 16000; int 20000 ];
  eqGains := JArr (replicate 31 (int 0));
  realTimeData := obj [
    ("frequencyResponse", JArr []);
    ("stereoWidth", dec 1 2);
    ("centerImageStrength", dec 1 2);
    ("depthPerception", dec 1 2);
    ("heightPerception", dec 1 2);
    ("noiseFloor", int (-60));
    ("dynamicRange", int 0);
    ("thd", int 0);
    ("imd", int 0) ]
|}.

(** An action [{ type, payload }]; a missing [payload] reads as
    [undefined]. *)
Record Action := mkAction {
  type : string;
  payload : value
}.

Definition audioReducer (state : State) (action : Action) : State :=
  let p := payload action in
  let s := state in
  if String.eqb (type action) "SET_CONNECTION_STATUS" then
    mkState p (isAnalyzing s) (isProcessing s) (audioData s) (analysisResults s)
      (eqProfile s) (soundstageProfile s) (userPreferences s) (frequencyBands s)
      (eqGains s) (realTimeData s)
  else if String.eqb (type action) "SET_ANALYZING" then
    mkState (isConnected s) p (isProcessing s) (audioData s) (analysisResults s)
      (eqProfile s) (soundstageProfile s) (userPreferences s) (frequencyBands s)
      (eqGains s) (realTimeData s)
  else if String.eqb (type action) "SET_PROCESSING" then
    mkState (isConnected s) (isAnalyzing s) p (audioData s) (analysisResults s)
      (eqProfile s) (soundstageProfile s) (userPreferences s) (frequencyBands s)
      (eqGains s) (realTimeData s)
  else if String.eqb (type action) "SET_AUDIO_DATA" then
    mkState (isConnected s) (isAnalyzing s) (isProcessing s) p (analysisResults s)
      (eqProfile s) (soundstageProfile s) (userPreferences s) (frequencyBands s)
      (eqGains s) (realTimeData s)
  else if String.eqb (type action) "SET_ANALYSIS_RESULTS" then
    mkState (isConnected s) (isAnalyzing s) (isProcessing s) (audioData s) p
      (eqProfile s) (soundstageProfile s) (userPreferences s) (frequencyBands s)
      (eqGains s) (realTimeData s)
  else if String.eqb (type action) "SET_EQ_PROFILE" then
    mkState (isConnected s) (isAnalyzing s) (isProcessing s) (audioData s)
      (analysisResults s) p (soundstageProfile s) (userPreferences s)
      (frequencyBands s) (eqGains s) (realTimeData s)
  else if String.eqb (type action) "SET_SOUNDSTAGE_PROFILE" then
    mkState (isConnected s) (isAnalyzing s) (isProcessing s) (audioData s)
      (analysisResults s) (eqProfile s) p (userPreferences s)
      (frequencyBands s) (eqGains s) (realTimeData s)
  else if String.eqb (type action) "UPDATE_USER_PREFERENCES" then
    mkState (isConnected s) (isAnalyzing s) (isProcessing s) (audioData s)
      (analysisResults s) (eqProfile s) (soundstageProfile s)
      (spread (userPreferences s) p)
      (frequencyBands s) (eqGains s) (realTimeData s)
  else if String.eqb (type action) "UPDATE_EQ_GAINS" then
    mkState (isConnected s) (isAnalyzing s) (isProcessing s) (audioData s)
      (analysisResults s) (eqProfile s) (soundstageProfile s) (userPreferences s)
      (frequencyBands s) p (realTimeData s)
  else if String.eqb (type action) "UPDATE_REAL_TIME_DATA" then
    mkState (isConnected s) (isAnalyzing s) (isProcessing s) (audioData s)
      (analysisResults s) (eqProfile s) (soundstageProfile s) (userPreferences s)
      (frequencyBands s) (eqGains s)
      (spread (realTimeData s) p)
  else if String.eqb (type action) "RESET_AUDIO_STATE" then
    mkState (isConnected s) (JBool false) (JBool false) JNull JNull
      (eqProfile s) (soundstageProfile s) (userPreferences s) (frequencyBands s)
      (eqGains s) (realTimeData s)
  else state.

(** The provider: the store together with the effects its handlers cause. *)
Record Ctx := mkCtx {
  store : State;
  trace : list effect
}.

Definition dispatch (a : Action) (c : Ctx) : Ctx :=
  mkCtx (audioReducer (store c) a) (trace c).

Definition emit (e : effect) (c : Ctx) : Ctx :=
  mkCtx (store c) (trace c ++ [e]).

Definition handleWebSocketMessage (data : value) (c : Ctx) : outcome Ctx :=
  match get_field data "type" with
  | None => Thrown c
  | Some t =>
    if is_str t "analysis_result" then
      let d := default JUndefined (get_field data "data") in
      let c1 := dispatch (mkAction "SET_ANALYSIS_RESULTS" d) c in
      match get_field d "acoustic_profile" with
      | None => Thrown c1
      | Some profile => Done (dispatch (mkAction "UPDATE_REAL_TIME_DATA" profile) c1)
      end
    else if is_str t "processed_audio" then Done c
    else if is_str t "optimized_audio" then Done c
    else if is_str t "error" then
      Done (emit (toast_error (default JUndefined (get_field data "message"))) c)
    else
      Done (emit (console_log [JStr "Unknown WebSocket message type:"; t]) c)
  end.

(** [ws.onmessage]: [parsed] is the result of [JSON.parse(event.data)],
    [None] when the text is not JSON and the call raises. *)
Definition ws_onmessage (parsed : option value) (c : Ctx) : Ctx :=
  try_catch
    (fun c => match parsed with
              | None => Thrown c
              | Some data => handleWebSocketMessage data c
              end)
    (emit (console_error "Error parsing WebSocket message:"))
    c.

Definition startAnalysis : Ctx -> Ctx :=
  dispatch (mkAction "SET_ANALYZING" (JBool true)).
Definition stopAnalysis : Ctx -> Ctx :=
  dispatch (mkAction "SET_ANALYZING" (JBool false)).
Definition updateUserPreferences (preferences : value) : Ctx -> Ctx :=
  dispatch (mkAction "UPDATE_USER_PREFERENCES" preferences).
Definition updateEQGains (gains : value) : Ctx -> Ctx :=
  dispatch (mkAction "UPDATE_EQ_GAINS" gains).
Definition setEQProfile (profile : value) : Ctx -> Ctx :=
  dispatch (mkAction "SET_EQ_PROFILE" profile).
Definition setSoundstageProfile (profile : value) : Ctx -> Ctx :=
  dispatch (mkAction "SET_SOUNDSTAGE_PROFILE" profile).
Definition resetAudioState : Ctx -> Ctx :=
  dispatch (mkAction "RESET_AUDIO_STATE" JUndefined).

End AudioContext.

(** ** The socket layer: [WebSocketContext.js] *)

Module WebSocketContext.

Inductive ready_state := CONNECTING | OPEN | CLOSING | CLOSED.

Inductive channel := Audio | Control.

(** A socket object made by [new WebSocket(url)]: [handlers] tells which of
    the two connect functions made it and so which [onopen], [onmessage],
    [onclose] and [onerror] it carries. *)
Record WebSocket := mkWebSocket {
  handlers : channel;
  readyState : ready_state
}.

Definition url (c : channel) : string :=
  match c with
  | Audio => "ws://localhost:8000/ws/audio-stream"
  | Control => "ws://localhost:8000/ws/control"
  end.

(** The provider's React state and refs, with the part of the browser they
    act on: the socket objects made so far (a ref holds the index of one),
    the pending timeouts (id to delay; the only [setTimeout] callback of the
    file is the one of [scheduleReconnect], which calls
    [connectAudioWebSocket]), and the trace. Timer ids are positive, so a
    ref that holds one is truthy. *)
Record State := mkState {
  isConnected : bool;
  connectionStatus : string;
  activeConnections : value;
  lastMessage : value;
  audioWsRef : option nat;
  controlWsRef : option nat;
  reconnectTimeoutRef : option nat;
  reconnectAttempts : nat;
  sockets : list WebSocket;
  timers : gmap nat Z;
  nextTimer : nat;
  trace : list effect
}.

Definition maxReconnectAttempts : nat := 5.

(** The period given to [setInterval] by the ping effect. *)
Definition pingIntervalMs : Z := 30000.

Definition setIsConnected (b : bool) (s : State) : State :=
  mkState b (connectionStatus s) (activeConnections s) (lastMessage s)
    (audioWsRef s) (controlWsRef s) (reconnectTimeoutRef s) (reconnectAttempts s)
    (sockets s) (timers s) (nextTimer s) (trace s).
Definition setConnectionStatus (v : string) (s : State) : State :=
  mkState (isConnected s) v (activeConnections s) (lastMessage s)
    (audioWsRef s) (controlWsRef s) (reconnectTimeoutRef s) (reconnectAttempts s)
    (sockets s) (timers s) (nextTimer s) (trace s).
Definition setActiveConnections (v : value) (s : State) : State :=
  mkState (isConnected s) (connectionStatus s) v (lastMessage s)
    (audioWsRef s) (controlWsRef s) (reconnectTimeoutRef s) (reconnectAttempts s)
    (sockets s) (timers s) (nextTimer s) (trace s).
Definition setLastMessage (v : value) (s : State) : State :=
  mkState (isConnected s) (connectionStatus s) (activeConnections s) v
    (audioWsRef s) (controlWsRef s) (reconnectTimeoutRef s) (reconnectAttempts s)
    (sockets s) (timers s) (nextTimer s) (trace s).
Definition set_audioWsRef (r : option nat) (s : State) : State :=
  mkState (isConnected s) (connectionStatus s) (activeConnections s) (lastMessage s)
    r (controlWsRef s) (reconnectTimeoutRef s) (reconnectAttempts s)
    (sockets s) (timers s) (nextTimer s) (trace s).
Definition set_controlWsRef (r : option nat) (s : State) : State :=
  mkState (isConnected s) (connectionStatus s) (activeConnections s) (lastMessage s)
    (audioWsRef s) r (reconnectTimeoutRef s) (reconnectAttempts s)
    (sockets s) (timers s) (nextTimer s) (trace s).
Definition set_reconnectTimeoutRef (r : option nat) (s : State) : State :=
  mkState (isConnected s) (connectionStatus s) (activeConnections s) (lastMessage s)
    (audioWsRef s) (controlWsRef s) r (reconnectAttempts s)
    (sockets s) (timers s) (nextTimer s) (trace s).
Definition set_reconnectAttempts (n : nat) (s : State) : State :=
  mkState (isConnected s) (connectionStatus s) (activeConnections s) (lastMessage s)
    (audioWsRef s) (controlWsRef s) (reconnectTimeoutRef s) n
    (sockets s) (timers s) (nextTimer s) (trace s).
Definition set_sockets (l : list WebSocket) (s : State) : State :=
  mkState (isConnected s) (connectionStatus s) (activeConnections s) (lastMessage s)
    (audioWsRef s) (controlWsRef s) (reconnectTimeoutRef s) (reconnectAttempts s)
    l (timers s) (nextTimer s) (trace s).
Definition set_timers (t : gmap nat Z) (n : nat) (s : State) : State :=
  mkState (isConnected s) (connectionStatus s) (activeConnections s) (lastMessage s)
    (audioWsRef s) (controlWsRef s) (reconnectTimeoutRef s) (reconnectAttempts s)
    (sockets s) t n (trace s).
Definition emit (e : effect) (s : State) : State :=
  mkState (isConnected s) (connectionStatus s) (activeConnections s) (lastMessage s)
    (audioWsRef s) (controlWsRef s) (reconnectTimeoutRef s) (reconnectAttempts s)
    (sockets s) (timers s) (nextTimer s) (trace s ++ [e]).

(** [new WebSocket(url c)] with the handlers of channel [c]: a fresh socket
    in the CONNECTING state; its index is the result. The two URLs are
    well-formed constants, for which the constructor does not raise. *)
Definition new_WebSocket (c : channel) (s : State) : nat * State :=
  (length (sockets s), set_sockets (sockets s ++ [mkWebSocket c CONNECTING]) s).

(** [setTimeout(callback, delay)] *)
Definition setTimeout (delay : Z) (s : State) : nat * State :=
  let id := nextTimer s in
  (id, emit (set_timeout id delay) (set_timers (<[id := delay]> (timers s)) (S id) s)).

Definition clearTimeout (id : nat) (s : State) : State :=
  emit (clear_timeout id) (set_timers (delete id (timers s)) (nextTimer s) s).

Definition connectAudioWebSocket (s : State) : State :=
  let '(ws, s) := new_WebSocket Audio s in
  set_audioWsRef (Some ws) s.

Definition connectControlWebSocket (s : State) : State :=
  let '(ws, s) := new_WebSocket Control s in
  set_controlWsRef (Some ws) s.

(** [Math.min(1000 * Math.pow(2, attempts), 30000)] *)
Definition reconnect_delay (attempts : nat) : Z :=
  Z.min (1000 * 2 ^ Z.of_nat attempts) 30000.

Definition scheduleReconnect (s : State) : State :=
  let s := match reconnectTimeoutRef s with
           | Some id => clearTimeout id s
           | None => s
           end in
  let delay := reconnect_delay (reconnectAttempts s) in
  let s := set_reconnectAttempts (S (reconnectAttempts s)) s in
  let '(id, s) := setTimeout delay s in
  set_reconnectTimeoutRef (Some id) s.

(** The callback that [scheduleReconnect] hands to [setTimeout]. *)
Definition reconnect_callback (s : State) : State :=
  let s := emit (console_log
    [JStr ("Attempting to reconnect (attempt " ++ pretty (reconnectAttempts s) ++ ")")]) s in
  connectAudioWebSocket s.

Definition handleAudioMessage (data : value) (s : State) : outcome State :=
  match get_field data "type" with
  | None => Thrown s
  | Some t =>
    if is_str t "analysis_result" then Done s
    else if is_str t "processed_audio" then Done s
    else if is_str t "optimized_audio" then Done s
    else if is_str t "error" then
      Done (emit (toast_error (default JUndefined (get_field data "message"))) s)
    else
      Done (emit (console_log [JStr "Unknown audio message type:"; t]) s)
  end.

Definition handleControlMessage (data : value) (s : State) : outcome State :=
  match get_field data "type" with
  | None => Thrown s
  | Some t =>
    if is_str t "preferences_updated" then
      Done (emit (toast_success (JStr "Preferences updated")) s)
    else if is_str t "eq_enabled" then
      Done (emit (toast_success (JStr "EQ enabled")) s)
    else if is_str t "eq_disabled" then
      Done (emit (toast_success (JStr "EQ disabled")) s)
    else if is_str t "soundstage_enabled" then
      Done (emit (toast_success (JStr "Soundstage optimization enabled")) s)
    else if is_str t "soundstage_disabled" then
      Done (emit (toast_success (JStr "Soundstage optimization disabled")) s)
    else if is_str t "connection_info" then
      match get_field (default JUndefined (get_field data "data")) "active_connections" with
      | None => Thrown s
      | Some n => Done (setActiveConnections n s)
      end
    else if is_str t "error" then
      Done (emit (toast_error (default JUndefined (get_field data "message"))) s)
    else
      Done (emit (console_log [JStr "Unknown control message type:"; t]) s)
  end.

(** The four handlers that [connectAudioWebSocket] installs. *)
Definition audio_onopen (s : State) : State :=
  let s := emit (console_log [JStr "Audio WebSocket connected"]) s in
  let s := setConnectionStatus "connected" s in
  set_reconnectAttempts 0 s.

Definition audio_onmessage (parsed : option value) (s : State) : State :=
  try_catch
    (fun s => match parsed with
              | None => Thrown s
              | Some data => handleAudioMessage data (setLastMessage data s)
              end)
    (emit (console_error "Error parsing audio WebSocket message:"))
    s.

Definition audio_onclose (code : Z) (reason : string) (s : State) : State :=
  let s := emit (console_log
    [JStr "Audio WebSocket disconnected:"; JNum (inject_Z code); JStr reason]) s in
  let s := setConnectionStatus "disconnected" s in
  let s := set_audioWsRef None s in
  if (reconnectAttempts s <? maxReconnectAttempts)%nat then scheduleReconnect s
  else emit (toast_error (JStr "Failed to reconnect to audio server")) s.

Definition audio_onerror (s : State) : State :=
  let s := emit (console_error "Audio WebSocket error:") s in
  emit (toast_error (JStr "Audio WebSocket connection error")) s.

(** The four handlers that [connectControlWebSocket] installs. *)
Definition control_onopen (s : State) : State :=
  let s := emit (console_log [JStr "Control WebSocket connected"]) s in
  setIsConnected true s.

Definition control_onmessage (parsed : option value) (s : State) : State :=
  try_catch
    (fun s => match parsed with
              | None => Thrown s
              | Some data => handleControlMessage data s
              end)
    (emit (console_error "Error parsing control WebSocket message:"))
    s.

Definition control_onclose (code : Z) (reason : string) (s : State) : State :=
  let s := emit (console_log
    [JStr "Control WebSocket disconnected:"; JNum (inject_Z code); JStr reason]) s in
  let s := setIsConnected false s in
  set_controlWsRef None s.

Definition control_onerror (s : State) : State :=
  let s := emit (console_error "Control WebSocket error:") s in
  emit (toast_error (JStr "Control WebSocket connection error")) s.

(** [ref.current && ref.current.readyState === WebSocket.OPEN]: the socket
    to write to, if the ref holds one that is open. *)
Definition open_socket (ref : option nat) (s : State) : option nat :=
  match ref with
  | None => None
  | Some ws =>
    match sockets s !! ws with
    | Some (mkWebSocket _ OPEN) => Some ws
    | _ => None
    end
  end.

Definition send (ws : nat) (data : frame) (s : State) : State :=
  emit (ws_send ws data) s.

Definition sendAudioData (audioData : value) (s : State) : State :=
  match open_socket (audioWsRef s) s with
  | Some ws => send ws (stringified audioData) s
  | None => emit (console_warn "Audio WebSocket not connected") s
  end.

Definition sendControlCommand (command : value) (s : State) : State :=
  match open_socket (controlWsRef s) s with
  | Some ws => send ws (stringified command) s
  | None => emit (console_warn "Control WebSocket not connected") s
  end.

Definition ping (s : State) : State :=
  match open_socket (audioWsRef s) s with
  | Some ws => send ws (Text "ping") s
  | None => s
  end.

Definition getStatus (s : State) : State :=
  match open_socket (audioWsRef s) s with
  | Some ws => send ws (Text "get_status") s
  | None => s
  end.

Definition toggleAnalysis (s : State) : State :=
  match open_socket (audioWsRef s) s with
  | Some ws => send ws (Text "toggle_analysis") s
  | None => s
  end.

Definition clearBuffer (s : State) : State :=
  match open_socket (audioWsRef s) s with
  | Some ws => send ws (Text "clear_buffer") s
  | None => s
  end.

Definition setPreferences (preferences : value) : State -> State :=
  sendControlCommand (JObj (obj [("type", JStr "set_preferences");
                                 ("preferences", preferences)])).

Definition enableEQ (eqProfile : value) : State -> State :=
  sendControlCommand (JObj (obj [("type", JStr "enable_eq");
                                 ("eq_profile", eqProfile)])).

Definition disableEQ : State -> State :=
  sendControlCommand (JObj (obj [("type", JStr "disable_eq")])).

Definition enableSoundstage (soundstageProfile : value) : State -> State :=
  sendControlCommand (JObj (obj [("type", JStr "enable_soundstage");
                                 ("soundstage_profile", soundstageProfile)])).

Definition disableSoundstage : State -> State :=
  sendControlCommand (JObj (obj [("type", JStr "disable_soundstage")])).

Definition getConnectionInfo : State -> State :=
  sendControlCommand (JObj (obj [("type", JStr "get_connection_info")])).

(** The callback of the ping effect's [setInterval(..., 30000)]. The effect
    is re-run whenever [isConnected] changes, so the callback reads the
    current value. *)
Definition ping_interval_callback (s : State) : State :=
  if isConnected s then ping s else s.

(** The provider before its first effect, and after the mount effect has
    called [connectAudioWebSocket(); connectControlWebSocket()]. *)
Definition init : State := {|
  isConnected := false;
  connectionStatus := "disconnected";
  activeConnections := JNum (inject_Z 0);
  lastMessage := JNull;
  audioWsRef := None;
  controlWsRef := None;
  reconnectTimeoutRef := None;
  reconnectAttempts := 0;
  sockets := [];
  timers := ∅;
  nextTimer := 1;
  trace := []
|}.

Definition mounted : State := connectControlWebSocket (connectAudioWebSocket init).

(** What the browser can deliver to the provider. A socket event names the
    socket it happens on; the browser moves the socket's [readyState] and
    then runs the handler the socket carries. *)
Inductive event :=
| ws_open (ws : nat)
| ws_message (ws : nat) (parsed : option value)
| ws_error (ws : nat)
| ws_close (ws : nat) (code : Z) (reason : string)
| timeout_fired (id : nat)
| ping_interval_tick.

Definition set_readyState (ws : nat) (r : ready_state) (s : State) : State :=
  set_sockets (alter (fun w => mkWebSocket (handlers w) r) ws (sockets s)) s.

Definition step (e : event) (s : State) : State :=
  match e with
  | ws_open ws =>
    match sockets s !! ws with
    | Some (mkWebSocket c CONNECTING) =>
      let s := set_readyState ws OPEN s in
      match c with Audio => audio_onopen s | Control => control_onopen s end
    | _ => s
    end
  | ws_message ws parsed =>
    match sockets s !! ws with
    | Some (mkWebSocket c OPEN) =>
      match c with
      | Audio => audio_onmessage parsed s
      | Control => control_onmessage parsed s
      end
    | _ => s
    end
  | ws_error ws =>
    match sockets s !! ws with
    | Some (mkWebSocket c _) =>
      match c with Audio => audio_onerror s | Control => control_onerror s end
    | None => s
    end
  | ws_close ws code reason =>
    match sockets s !! ws with
    | Some (mkWebSocket c r) =>
      match r with
      | CLOSED => s
      | _ =>
        let s := set_readyState ws CLOSED s in
        match c with
        | Audio => audio_onclose code reason s
        | Control => control_onclose code reason s
        end
      end
    | None => s
    end
  | timeout_fired id =>
    match timers s !! id with
    | Some _ => reconnect_callback (set_timers (delete id (timers s)) (nextTimer s) s)
    | None => s
    end
  | ping_interval_tick => ping_interval_callback s
  end.

Definition run (es : list event) (s : State) : State :=
  foldl (fun s e => step e s) s es.

(** The delays of the [setTimeout] calls of a trace, in order. *)
Definition scheduled_delays (t : list effect) : list Z :=
  omap (fun e => match e with set_timeout _ d => Some d | _ => None end) t.

(** The socket writes of a trace, in order. *)
Definition sent (t : list effect) : list (nat * frame) :=
  omap (fun e => match e with ws_send ws f => Some (ws, f) | _ => None end) t.

End WebSocketContext.

(** ** Definitions that the statements use *)

(** The field names of [UserPreferences]: the keys of the initial object. *)
Definition known_preference_keys : gset string :=
  dom (AudioContext.userPreferences AudioContext.initialState).

(** The [case] labels of the telemetry handlers ([handleWebSocketMessage] in
    the store provider, [handleAudioMessage] in the socket provider) and of
    [handleControlMessage]. *)
Definition telemetry_tags : list string :=
  ["analysis_result"; "processed_audio"; "optimized_audio"; "error"].

Definition control_tags : list string :=
  ["preferences_updated"; "eq_enabled"; "eq_disabled"; "soundstage_enabled";
   "soundstage_disabled"; "connection_info"; "error"].

Definition unrecognized (tags : list string) (t : value) : Prop :=
  Forall (fun tag => t <> JStr tag) tags.

(** A telemetry socket that can still close: the one the ref holds, with
    the audio handlers, not yet CLOSED. *)
Definition live_audio (s : WebSocketContext.State) : Prop :=
  exists ws r,
    WebSocketContext.audioWsRef s = Some ws
    /\ WebSocketContext.sockets s !! ws = Some (WebSocketContext.mkWebSocket WebSocketContext.Audio r)
    /\ r <> WebSocketContext.CLOSED.

(** One unplanned close of the telemetry channel: the socket the ref holds
    closes with the given code and reason, and the timeout that the close
    handler has scheduled, if any is pending, fires. *)
Definition close_then_retry (c : Z * string) (s : WebSocketContext.State)
  : WebSocketContext.State :=
  match WebSocketContext.audioWsRef s with
  | Some ws =>
    let s := WebSocketContext.step (WebSocketContext.ws_close ws c.1 c.2) s in
    match WebSocketContext.reconnectTimeoutRef s with
    | Some id => WebSocketContext.step (WebSocketContext.timeout_fired id) s
    | None => s
    end
  | None => s
  end.

(** Consecutive unplanned closes, no open in between. *)
Definition consecutive_closes (cs : list (Z * string)) (s : WebSocketContext.State)
  : WebSocketContext.State :=
  foldl (fun s c => close_then_retry c s) s cs.

(** Range validation of an equalization profile as the specification words
    it (sections 3 and 4.4), not taken from the source: gains have the
    nominal range [-12, +12] dB and out-of-range values are clamped before
    the profile is sent. The source has no counterpart; the definition is
    here to compare what [enableEQ] sends with what the specification
    describes. *)
Definition spec_clamp_gain (v : value) : value :=
  match v with
  | JNum q =>
    if Qle_bool q (inject_Z (-12)) then JNum (inject_Z (-12))
    else if Qle_bool (inject_Z 12) q then JNum (inject_Z 12)
    else v
  | JNonFinite NegInfinity => JNum (inject_Z (-12))
  | JNonFinite PosInfinity => JNum (inject_Z 12)
  | _ => v
  end.

Definition spec_range_validated (profile : value) : value :=
  match profile with
  | JObj m =>
    JObj (alter (fun g => match g with
                          | JArr l => JArr (spec_clamp_gain <$> l)
                          | _ => g
                          end) "gains" m)
  | _ => profile
  end.

(** A value that holds no [undefined] and no non-finite number, at any
    depth: the values that [JSON.parse] produces and that [JSON.stringify]
    writes unchanged. *)
Fixpoint json_clean (v : value) : bool :=
  match v with
  | JUndefined => false
  | JNonFinite _ => false
  | JArr l => forallb json_clean l
  | JObj m => map_fold (fun _ x acc => json_clean x && acc) true m
  | _ => true
  end.

(** The number of nodes of a value, the measure for induction through
    arrays and objects. *)
Fixpoint vsize (v : value) : nat :=
  match v with
  | JArr l => S (foldr (fun x acc => vsize x + acc)%nat 0%nat l)
  | JObj m => S (map_fold (fun _ x acc => vsize x + acc)%nat 0%nat m)
  | _ => 1
  end.

(** ** The rest of the socket provider: commands as data, and unmount *)

Module WebSocketLifecycle.
Import WebSocketContext.

(** The functions the provider hands to its consumers through the context
    value. *)
Inductive command :=
| Ping
| GetStatus
| ToggleAnalysis
| ClearBuffer
| SendAudioData (audioData : value)
| SendControlCommand (command : value)
| SetPreferences (preferences : value)
| EnableEQ (eqProfile : value)
| DisableEQ
| EnableSoundstage (soundstageProfile : value)
| DisableSoundstage
| GetConnectionInfo.

Definition call (c : command) : State -> State :=
  match c with
  | Ping => ping
  | GetStatus => getStatus
  | ToggleAnalysis => toggleAnalysis
  | ClearBuffer => clearBuffer
  | SendAudioData d => sendAudioData d
  | SendControlCommand c => sendControlCommand c
  | SetPreferences p => setPreferences p
  | EnableEQ p => enableEQ p
  | DisableEQ => disableEQ
  | EnableSoundstage p => enableSoundstage p
  | DisableSoundstage => disableSoundstage
  | GetConnectionInfo => getConnectionInfo
  end.

(** What can happen to a mounted provider: the browser delivers an event or
    a consumer calls one of the functions. *)
Inductive input :=
| Ev (e : event)
| Call (c : command).

Definition react (i : input) : State -> State :=
  match i with
  | Ev e => step e
  | Call c => call c
  end.

Definition drive (ins : list input) (s : State) : State :=
  foldl (fun s i => react i s) s ins.

(** [ws.close()]: a socket that is connecting or open starts closing; on a
    socket that is already closing or closed the call does nothing. The
    close event follows later, as a [ws_close] event. *)
Definition close_method (ws : nat) (s : State) : State :=
  match sockets s !! ws with
  | Some (mkWebSocket _ CONNECTING) | Some (mkWebSocket _ OPEN) =>
    set_readyState ws CLOSING s
  | _ => s
  end.

(** Where [close()] takes a [readyState]. *)
Definition closing (r : ready_state) : ready_state :=
  match r with
  | CONNECTING | OPEN => CLOSING
  | _ => r
  end.

(** The function the mount effect returns, run at unmount. *)
Definition cleanup (s : State) : State :=
  let s := match reconnectTimeoutRef s with
           | Some id => clearTimeout id s
           | None => s
           end in
  let s := match audioWsRef s with
           | Some ws => close_method ws s
           | None => s
           end in
  match controlWsRef s with
  | Some ws => close_method ws s
  | None => s
  end.

(** The shape every state reached from [mounted] has: each ref holds a
    socket made by its own connect function, a pending timeout is the one
    the timeout ref holds, and the attempt count is within the cap. *)
Definition well_formed (s : State) : Prop :=
  (forall ws, audioWsRef s = Some ws ->
     exists r, sockets s !! ws = Some (mkWebSocket Audio r))
  /\ (forall ws, controlWsRef s = Some ws ->
        exists r, sockets s !! ws = Some (mkWebSocket Control r))
  /\ (forall id d, timers s !! id = Some d -> reconnectTimeoutRef s = Some id)
  /\ (reconnectAttempts s <= maxReconnectAttempts)%nat.

(** Two states that differ at most in the React state and the trace. *)
Definition same_wiring (s s' : State) : Prop :=
  audioWsRef s' = audioWsRef s
  /\ controlWsRef s' = controlWsRef s
  /\ reconnectTimeoutRef s' = reconnectTimeoutRef s
  /\ reconnectAttempts s' = reconnectAttempts s
  /\ sockets s' = sockets s
  /\ timers s' = timers s
  /\ nextTimer s' = nextTimer s.

(** The channel a command writes on, and the one an input can write on
    (the only write an event causes is the periodic ping). *)
Definition channel_of (c : command) : channel :=
  match c with
  | Ping | GetStatus | ToggleAnalysis | ClearBuffer | SendAudioData _ => Audio
  | _ => Control
  end.

Definition target (i : input) : channel :=
  match i with
  | Ev _ => Audio
  | Call c => channel_of c
  end.

(** The delays the scheduler can hand to [setTimeout] below the cap. *)
Definition backoff_delays : list Z := [1000; 2000; 4000; 8000; 16000]%Z.

(** Persistent failure: the cap is reached, nothing is pending and no
    telemetry socket is left that could still open or close. *)
Definition exhausted (s : State) : Prop :=
  reconnectAttempts s = maxReconnectAttempts
  /\ timers s = ∅
  /\ (forall ws r, sockets s !! ws = Some (mkWebSocket Audio r) -> r = CLOSED).

End WebSocketLifecycle.

(** ** The store provider's own socket: the effect of [AudioContextProvider] *)

Module AudioSocket.
Import AudioContext.

(** The store with the sockets the effect has made (all carry the same four
    handlers, so a socket is its [readyState]), the socket the effect's
    [const ws] holds, and the pending timeouts (the only callback is
    [connectWebSocket]). *)
Record Provider := mkProvider {
  ctx : Ctx;
  sockets : list WebSocketContext.ready_state;
  effect_ws : option nat;
  timers : gmap nat Z;
  nextTimer : nat
}.

Definition with_ctx (f : Ctx -> Ctx) (p : Provider) : Provider :=
  mkProvider (f (ctx p)) (sockets p) (effect_ws p) (timers p) (nextTimer p).

(** [connectWebSocket()]: the new socket is the result. *)
Definition connectWebSocket (p : Provider) : nat * Provider :=
  (length (sockets p),
   mkProvider (ctx p) (sockets p ++ [WebSocketContext.CONNECTING])
     (effect_ws p) (timers p) (nextTimer p)).

Definition ws_onopen (p : Provider) : Provider :=
  let p := with_ctx (dispatch (mkAction "SET_CONNECTION_STATUS" (JBool true))) p in
  with_ctx (emit (toast_success (JStr "Connected to audio server"))) p.

Definition ws_onclose (p : Provider) : Provider :=
  let p := with_ctx (dispatch (mkAction "SET_CONNECTION_STATUS" (JBool false))) p in
  let p := with_ctx (emit (toast_error (JStr "Disconnected from audio server"))) p in
  let id := nextTimer p in
  mkProvider (emit (set_timeout id 3000) (ctx p)) (sockets p) (effect_ws p)
    (<[id := 3000%Z]> (timers p)) (S id).

Definition ws_onerror (p : Provider) : Provider :=
  let p := with_ctx (emit (console_error "WebSocket error:")) p in
  with_ctx (emit (toast_error (JStr "WebSocket connection error"))) p.

(** The effect body: [const ws = connectWebSocket()]. *)
Definition mount (c : Ctx) : Provider :=
  let '(ws, p) := connectWebSocket (mkProvider c [] None ∅ 1) in
  mkProvider (ctx p) (sockets p) (Some ws) (timers p) (nextTimer p).

Definition set_readyState (ws : nat) (r : WebSocketContext.ready_state)
    (p : Provider) : Provider :=
  mkProvider (ctx p) (<[ws := r]> (sockets p)) (effect_ws p) (timers p) (nextTimer p).

(** The effect's cleanup: [if (ws) ws.close()], on the socket of the first
    [connectWebSocket()] call. *)
Definition cleanup (p : Provider) : Provider :=
  match effect_ws p with
  | Some ws =>
    match sockets p !! ws with
    | Some WebSocketContext.CONNECTING | Some WebSocketContext.OPEN =>
      set_readyState ws WebSocketContext.CLOSING p
    | _ => p
    end
  | None => p
  end.

Inductive event :=
| ws_open (ws : nat)
| ws_message (ws : nat) (parsed : option value)
| ws_error (ws : nat)
| ws_close (ws : nat)
| timeout_fired (id : nat).

Definition step (e : event) (p : Provider) : Provider :=
  match e with
  | ws_open ws =>
    match sockets p !! ws with
    | Some WebSocketContext.CONNECTING =>
      ws_onopen (set_readyState ws WebSocketContext.OPEN p)
    | _ => p
    end
  | ws_message ws parsed =>
    match sockets p !! ws with
    | Some WebSocketContext.OPEN => with_ctx (ws_onmessage parsed) p
    | _ => p
    end
  | ws_error ws =>
    match sockets p !! ws with
    | Some _ => ws_onerror p
    | None => p
    end
  | ws_close ws =>
    match sockets p !! ws with
    | Some WebSocketContext.CLOSED | None => p
    | Some _ => ws_onclose (set_readyState ws WebSocketContext.CLOSED p)
    end
  | timeout_fired id =>
    match timers p !! id with
    | Some _ =>
      (connectWebSocket
         (mkProvider (ctx p) (sockets p) (effect_ws p) (delete id (timers p))
            (nextTimer p))).2
    | None => p
    end
  end.

Definition run (es : list event) (p : Provider) : Provider :=
  foldl (fun p e => step e p) p es.

(** The socket made last closes, and the timeout its close handler has set
    fires. *)
Definition close_then_retry (p : Provider) : Provider :=
  let p := step (ws_close (length (sockets p) - 1)) p in
  step (timeout_fired (nextTimer p - 1)) p.

(** The socket made last can still close. *)
Definition live (p : Provider) : Prop :=
  exists r, sockets p !! (length (sockets p) - 1)%nat = Some r
            /\ r <> WebSocketContext.CLOSED.

End AudioSocket.

(** ** The pages that drive the two providers *)

(** [if (v)]: what JavaScript takes for true. *)
Definition truthy (v : value) : bool :=
  match v with
  | JUndefined | JNull => false
  | JBool b => b
  | JNum q => negb (Qeq_bool q 0)
  | JNonFinite NaN => false
  | JNonFinite _ => true
  | JStr s => match s with EmptyString => false | _ => true end
  | JArr _ | JObj _ => true
  end.

(** [arr[i] = x]: an index within the array overwrites that element; an
    index past the end grows the array, the gap reading as [undefined]. *)
Definition array_set (i : nat) (x : value) (l : list value) : list value :=
  if (i <? length l)%nat then <[i := x]> l
  else (l ++ replicate (i - length l) JUndefined ++ [x])%list.

(** [[...v]]: an array is copied, a string gives its characters, anything
    else in the value domain is not iterable and raises ([None]). *)
Definition array_spread (v : value) : option (list value) :=
  match v with
  | JArr l => Some l
  | JStr s => Some (chars s)
  | _ => None
  end.

(** [arr.slice(-n)]: the last [n] elements, all of them when there are
    fewer. *)
Definition slice_last {A : Type} (n : nat) (l : list A) : list A :=
  drop (length l - n) l.

(** *** [EQControl.js] *)

Module EQControl.

(** The component's local state with the two providers it reads and calls.
    [eqProfile] is the component's own [useState(null)], not the store's
    field of the same name. *)
Record Page := mkPage {
  audio : AudioContext.Ctx;
  socket : WebSocketContext.State;
  isEQEnabled : bool;
  selectedPreset : string;
  eqProfile : value;
  toasts : list effect
}.

Definition ints (l : list Z) : value := JArr (AudioContext.int <$> l).

Definition presets : gmap string value := obj [
  ("flat", JArr (replicate 31 (AudioContext.int 0)));
  ("rock", ints [2; 1; 0; -1; -2; -1; 0; 1; 2; 1; 0; -1; 0; 1; 2; 1; 0; -1;
                 0; 1; 2; 1; 0; -1; 0; 1; 2; 1; 0; -1; 0]%Z);
  ("classical", JArr (replicate 31 (AudioContext.int 0)));
  ("jazz", ints [1; 1; 0; 0; 0; 0; 0; 0; 0; 0; 0; 0; 0; 0; 0; 0; 0; 0; 0; 0;
                 0; 0; 0; 0; 0; 0; 0; 0; 0; 0; 0]%Z);
  ("electronic", ints [3; 2; 1; 0; -1; 0; 1; 2; 1; 0; -1; 0; 1; 2; 1; 0; -1;
                       0; 1; 2; 1; 0; -1; 0; 1; 2; 1; 0; -1; 0; 1]%Z);
  ("pop", ints [1; 1; 0; 0; 0; 0; 0; 0; 0; 0; 0; 0; 0; 0; 0; 0; 0; 0; 0; 0;
                0; 0; 0; 0; 0; 0; 0; 0; 0; 0; 0]%Z) ].

Definition with_audio (f : AudioContext.Ctx -> AudioContext.Ctx) (pg : Page) : Page :=
  mkPage (f (audio pg)) (socket pg) (isEQEnabled pg) (selectedPreset pg)
    (eqProfile pg) (toasts pg).
Definition with_socket (f : WebSocketContext.State -> WebSocketContext.State)
    (pg : Page) : Page :=
  mkPage (audio pg) (f (socket pg)) (isEQEnabled pg) (selectedPreset pg)
    (eqProfile pg) (toasts pg).
Definition setIsEQEnabled (b : bool) (pg : Page) : Page :=
  mkPage (audio pg) (socket pg) b (selectedPreset pg) (eqProfile pg) (toasts pg).
Definition setSelectedPreset (n : string) (pg : Page) : Page :=
  mkPage (audio pg) (socket pg) (isEQEnabled pg) n (eqProfile pg) (toasts pg).
Definition setEqProfile (v : value) (pg : Page) : Page :=
  mkPage (audio pg) (socket pg) (isEQEnabled pg) (selectedPreset pg) v (toasts pg).
Definition toast (e : effect) (pg : Page) : Page :=
  mkPage (audio pg) (socket pg) (isEQEnabled pg) (selectedPreset pg)
    (eqProfile pg) (toasts pg ++ [e]).

Definition store (pg : Page) : AudioContext.State := AudioContext.store (audio pg).

(** [parsed] is the number [parseFloat(e.target.value)] gives for the value
    of the range input. *)
Definition handleEQGainChange (index : nat) (parsed : Q) (pg : Page) : outcome Page :=
  match array_spread (AudioContext.eqGains (store pg)) with
  | None => Thrown pg
  | Some newGains =>
    Done (with_audio
            (AudioContext.updateEQGains (JArr (array_set index (JNum parsed) newGains)))
            pg)
  end.

(** [presets[presetName]] for a name that is no key of the object reads as
    [undefined]; the buttons pass the keys of [presets]. *)
Definition handlePresetChange (presetName : string) (pg : Page) : Page :=
  let pg := setSelectedPreset presetName pg in
  if negb (String.eqb presetName "custom") then
    with_audio (AudioContext.updateEQGains (default JUndefined (presets !! presetName))) pg
  else pg.

Definition handleResetEQ (pg : Page) : Page :=
  let pg := with_audio
    (AudioContext.updateEQGains (JArr (replicate 31 (AudioContext.int 0)))) pg in
  let pg := setSelectedPreset "flat" pg in
  toast (toast_success (JStr "EQ reset to flat")) pg.

(** The profile both buttons build; [today] is
    [new Date().toISOString().split('T')[0]]. *)
Definition profile (prefix today : string) (pg : Page) : value :=
  JObj (obj [
    ("name", JStr (prefix ++ today));
    ("frequency_bands", AudioContext.frequencyBands (store pg));
    ("gains", AudioContext.eqGains (store pg));
    ("q_factors", JArr (replicate 31 (AudioContext.int 1)));
    ("filter_types", JArr (replicate 31 (JStr "peaking")));
    ("user_preferences", JObj (AudioContext.userPreferences (store pg)));
    ("acoustic_compensation", JObj (obj [])) ]).

Definition handleSaveProfile (today : string) (pg : Page) : Page :=
  let pg := setEqProfile (profile "Custom_" today pg) pg in
  toast (toast_success (JStr "EQ profile saved")) pg.

Definition handleToggleEQ (today : string) (pg : Page) : Page :=
  if isEQEnabled pg then
    let pg := with_socket WebSocketContext.disableEQ pg in
    let pg := setIsEQEnabled false pg in
    toast (toast_success (JStr "EQ disabled")) pg
  else
    let pg := with_socket (WebSocketContext.enableEQ (profile "EQ_" today pg)) pg in
    let pg := setIsEQEnabled true pg in
    toast (toast_success (JStr "EQ enabled")) pg.

(** What the user can do on the page. *)
Inductive op :=
| GainChange (index : nat) (parsed : Q)
| PresetChange (presetName : string)
| ResetEQ
| SaveProfile (today : string)
| ToggleEQ (today : string).

Definition handle (o : op) (pg : Page) : outcome Page :=
  match o with
  | GainChange i q => handleEQGainChange i q pg
  | PresetChange n => Done (handlePresetChange n pg)
  | ResetEQ => Done (handleResetEQ pg)
  | SaveProfile d => Done (handleSaveProfile d pg)
  | ToggleEQ d => Done (handleToggleEQ d pg)
  end.

(** A sequence of operations; it stops at the first one that raises. *)
Fixpoint run (ops : list op) (pg : Page) : outcome Page :=
  match ops with
  | [] => Done pg
  | o :: ops =>
    match handle o pg with
    | Done pg' => run ops pg'
    | Thrown pg' => Thrown pg'
    end
  end.

(** The operations the rendered page can issue: a slider exists for each of
    the 31 bands, a button for each key of [presets]. *)
Definition from_ui (o : op) : Prop :=
  match o with
  | GainChange i _ => (i < 31)%nat
  | PresetChange n => n ∈ dom presets
  | _ => True
  end.

End EQControl.

(** *** [ProfileSettings.js] *)

Module ProfileSettings.

(** The local [preferences] and [profileName] hold whatever value the last
    setter call gave them; an import can put any truthy value there. *)
Record Page := mkPage {
  audio : AudioContext.Ctx;
  socket : WebSocketContext.State;
  preferences : value;
  profileName : value;
  isDirty : bool;
  toasts : list effect
}.

(** The object literal of the initial state and of
    [handleResetPreferences]. *)
Definition defaultPreferences : value := JObj (obj [
  ("bass_preference", AudioContext.int 0);
  ("treble_preference", AudioContext.int 0);
  ("vocal_clarity", AudioContext.int 0);
  ("soundstage_width", AudioContext.dec 1 2);
  ("height_preference", AudioContext.dec 1 2);
  ("depth_preference", AudioContext.dec 1 2);
  ("music_genre", JStr "general");
  ("listening_environment", JStr "car");
  ("speaker_count", AudioContext.int 2);
  ("subwoofer_present", JBool false);
  ("amplifier_power", AudioContext.int 50);
  ("cabin_size", JStr "medium") ]).

Definition with_audio (f : AudioContext.Ctx -> AudioContext.Ctx) (pg : Page) : Page :=
  mkPage (f (audio pg)) (socket pg) (preferences pg) (profileName pg)
    (isDirty pg) (toasts pg).
Definition with_socket (f : WebSocketContext.State -> WebSocketContext.State)
    (pg : Page) : Page :=
  mkPage (audio pg) (f (socket pg)) (preferences pg) (profileName pg)
    (isDirty pg) (toasts pg).
Definition setPreferencesState (v : value) (pg : Page) : Page :=
  mkPage (audio pg) (socket pg) v (profileName pg) (isDirty pg) (toasts pg).
Definition setProfileName (v : value) (pg : Page) : Page :=
  mkPage (audio pg) (socket pg) (preferences pg) v (isDirty pg) (toasts pg).
Definition setIsDirty (b : bool) (pg : Page) : Page :=
  mkPage (audio pg) (socket pg) (preferences pg) (profileName pg) b (toasts pg).
Definition toast (e : effect) (pg : Page) : Page :=
  mkPage (audio pg) (socket pg) (preferences pg) (profileName pg)
    (isDirty pg) (toasts pg ++ [e]).

Definition store (pg : Page) : AudioContext.State := AudioContext.store (audio pg).

(** The component as first rendered over the two providers. *)
Definition init (a : AudioContext.Ctx) (w : WebSocketContext.State) : Page :=
  mkPage a w defaultPreferences (JStr "My Profile") false [].

(** The effect on [[userPreferences]]: it runs after the first render and
    after every render in which the store holds a new preferences object,
    that is, after every UPDATE_USER_PREFERENCES. *)
Definition sync_effect (pg : Page) : Page :=
  setPreferencesState (JObj (AudioContext.userPreferences (store pg))) pg.

(** [{...prev, [key]: value}] *)
Definition handlePreferenceChange (key : string) (v : value) (pg : Page) : Page :=
  let pg := setPreferencesState (JObj (<[key := v]> (own_props (preferences pg)))) pg in
  setIsDirty true pg.

Definition handleSavePreferences (pg : Page) : Page :=
  let prefs := preferences pg in
  let pg := with_audio (AudioContext.updateUserPreferences prefs) pg in
  let pg := with_socket (WebSocketContext.setPreferences prefs) pg in
  let pg := setIsDirty false pg in
  toast (toast_success (JStr "Preferences saved")) pg.

(** The click on Save with the render that follows it. *)
Definition save (pg : Page) : Page := sync_effect (handleSavePreferences pg).

Definition handleResetPreferences (pg : Page) : Page :=
  let pg := setPreferencesState defaultPreferences pg in
  let pg := setIsDirty true pg in
  toast (toast_success (JStr "Preferences reset to defaults")) pg.

(** [reader.onload] of [handleImportProfile]: [parsed] is
    [JSON.parse(e.target.result)], [None] when the file is not JSON. Like
    the fields in [get_field]'s note, [preferences] and [name] are no
    built-in property of any JSON value. *)
Definition import_onload (parsed : option value) (pg : Page) : Page :=
  try_catch
    (fun pg =>
       match parsed with
       | None => Thrown pg
       | Some profileData =>
         match get_field profileData "preferences" with
         | None => Thrown pg
         | Some prefs =>
           if truthy prefs then
             let pg := setPreferencesState prefs pg in
             let name := default JUndefined (get_field profileData "name") in
             let pg := if truthy name then setProfileName name pg else pg in
             let pg := setIsDirty true pg in
             Done (toast (toast_success (JStr "Profile imported")) pg)
           else
             Done (toast (toast_error (JStr "Invalid profile file")) pg)
         end
       end)
    (toast (toast_error (JStr "Error reading profile file")))
    pg.

Definition handleResetAll (pg : Page) : Page :=
  let pg := with_audio AudioContext.resetAudioState pg in
  let pg := handleResetPreferences pg in
  let pg := setProfileName (JStr "My Profile") pg in
  let pg := setIsDirty false pg in
  toast (toast_success (JStr "All settings reset")) pg.

End ProfileSettings.

(** *** [RealTimeMonitor.js] *)

Module RealTimeMonitor.

(** The component's log and flags with the two providers. The random
    visualization buffer and its animation frame are left out: no handler
    below reads them. A log entry is its timestamp and its message. *)
Record Page := mkPage {
  audio : AudioContext.Ctx;
  socket : WebSocketContext.State;
  isMonitoring : bool;
  logEntries : list (string * string);
  lastUpdate : option string;
  toasts : list effect
}.

Definition with_audio (f : AudioContext.Ctx -> AudioContext.Ctx) (pg : Page) : Page :=
  mkPage (f (audio pg)) (socket pg) (isMonitoring pg) (logEntries pg)
    (lastUpdate pg) (toasts pg).
Definition with_socket (f : WebSocketContext.State -> WebSocketContext.State)
    (pg : Page) : Page :=
  mkPage (audio pg) (f (socket pg)) (isMonitoring pg) (logEntries pg)
    (lastUpdate pg) (toasts pg).
Definition setIsMonitoring (b : bool) (pg : Page) : Page :=
  mkPage (audio pg) (socket pg) b (logEntries pg) (lastUpdate pg) (toasts pg).
Definition setLogEntries (f : list (string * string) -> list (string * string))
    (pg : Page) : Page :=
  mkPage (audio pg) (socket pg) (isMonitoring pg) (f (logEntries pg))
    (lastUpdate pg) (toasts pg).
Definition setLastUpdate (t : string) (pg : Page) : Page :=
  mkPage (audio pg) (socket pg) (isMonitoring pg) (logEntries pg) (Some t) (toasts pg).
Definition toast (e : effect) (pg : Page) : Page :=
  mkPage (audio pg) (socket pg) (isMonitoring pg) (logEntries pg)
    (lastUpdate pg) (toasts pg ++ [e]).

(** [now] is [new Date().toLocaleTimeString()]. *)
Definition addLogEntry (now message : string) (pg : Page) : Page :=
  setLogEntries (fun prev => slice_last 50 (prev ++ [(now, message)])) pg.

Definition handleStartMonitoring (now : string) (pg : Page) : Page :=
  let pg := setIsMonitoring true pg in
  let pg := with_audio AudioContext.startAnalysis pg in
  let pg := addLogEntry now "Real-time monitoring started" pg in
  toast (toast_success (JStr "Real-time monitoring started")) pg.

Definition handleStopMonitoring (now : string) (pg : Page) : Page :=
  let pg := setIsMonitoring false pg in
  let pg := with_audio AudioContext.stopAnalysis pg in
  let pg := addLogEntry now "Real-time monitoring stopped" pg in
  toast (toast_success (JStr "Real-time monitoring stopped")) pg.

Definition handleReset (now : string) (pg : Page) : Page :=
  let pg := with_audio AudioContext.resetAudioState pg in
  let pg := with_socket WebSocketContext.clearBuffer pg in
  let pg := setIsMonitoring false pg in
  let pg := setLogEntries (fun _ => []) pg in
  let pg := addLogEntry now "Monitor reset" pg in
  toast (toast_success (JStr "Monitor reset")) pg.

Definition handlePing (now : string) (pg : Page) : Page :=
  let pg := with_socket WebSocketContext.ping pg in
  addLogEntry now "Ping sent to server" pg.

Definition handleGetStatus (now : string) (pg : Page) : Page :=
  let pg := with_socket WebSocketContext.getStatus pg in
  addLogEntry now "Status request sent" pg.

Definition handleToggleAnalysis (now : string) (pg : Page) : Page :=
  let pg := with_socket WebSocketContext.toggleAnalysis pg in
  addLogEntry now "Analysis toggled" pg.

(** The effect on [[realTimeData]]:
    [if (realTimeData && Object.keys(realTimeData).length > 0)]. *)
Definition realTimeData_effect (now : string) (pg : Page) : Page :=
  if bool_decide (AudioContext.realTimeData (AudioContext.store (audio pg)) = ∅)
  then pg
  else setLastUpdate now (addLogEntry now "Real-time data updated" pg).

Inductive op :=
| StartMonitoring
| StopMonitoring
| Reset
| PingServer
| GetStatus
| ToggleAnalysis
| RealTimeDataChanged.

Definition handle (o : op) (now : string) : Page -> Page :=
  match o with
  | StartMonitoring => handleStartMonitoring now
  | StopMonitoring => handleStopMonitoring now
  | Reset => handleReset now
  | PingServer => handlePing now
  | GetStatus => handleGetStatus now
  | ToggleAnalysis => handleToggleAnalysis now
  | RealTimeDataChanged => realTimeData_effect now
  end.

Definition run (ops : list (op * string)) (pg : Page) : Page :=
  foldl (fun pg o => handle o.1 o.2 pg) pg ops.

End RealTimeMonitor.

(** *** [Dashboard.js] *)

Module Dashboard.

Record Page := mkPage {
  audio : AudioContext.Ctx;
  socket : WebSocketContext.State;
  isPlaying : bool;
  toasts : list effect
}.

Definition with_audio (f : AudioContext.Ctx -> AudioContext.Ctx) (pg : Page) : Page :=
  mkPage (f (audio pg)) (socket pg) (isPlaying pg) (toasts pg).
Definition with_socket (f : WebSocketContext.State -> WebSocketContext.State)
    (pg : Page) : Page :=
  mkPage (audio pg) (f (socket pg)) (isPlaying pg) (toasts pg).
Definition setIsPlaying (b : bool) (pg : Page) : Page :=
  mkPage (audio pg) (socket pg) b (toasts pg).
Definition toast (e : effect) (pg : Page) : Page :=
  mkPage (audio pg) (socket pg) (isPlaying pg) (toasts pg ++ [e]).

Definition handlePlayPause (pg : Page) : Page :=
  if isPlaying pg then
    let pg := setIsPlaying false pg in
    let pg := with_audio AudioContext.stopAnalysis pg in
    toast (toast_success (JStr "Audio analysis stopped")) pg
  else
    let pg := setIsPlaying true pg in
    let pg := with_audio AudioContext.startAnalysis pg in
    toast (toast_success (JStr "Audio analysis started")) pg.

Definition handleReset (pg : Page) : Page :=
  let pg := with_audio AudioContext.resetAudioState pg in
  let pg := with_socket WebSocketContext.clearBuffer pg in
  let pg := setIsPlaying false pg in
  toast (toast_success (JStr "Audio state reset")) pg.

Definition handleToggleAnalysis (pg : Page) : Page :=
  let pg := with_socket WebSocketContext.toggleAnalysis pg in
  toast (toast_success (JStr "Analysis toggled")) pg.

(** The callback of the status effect's [setInterval(..., 5000)], also run
    once by the effect itself. *)
Definition status_tick (pg : Page) : Page :=
  with_socket WebSocketContext.getStatus pg.

Inductive op := PlayPause | ResetAll | ToggleAnalysis | StatusTick.

Definition handle (o : op) : Page -> Page :=
  match o with
  | PlayPause => handlePlayPause
  | ResetAll => handleReset
  | ToggleAnalysis => handleToggleAnalysis
  | StatusTick => status_tick
  end.

Definition run (ops : list op) (pg : Page) : Page :=
  foldl (fun pg o => handle o pg) pg ops.

End Dashboard.

(** ** The store *)

Section Store.
Import AudioContext.

Implicit Types (s : AudioContext.State) (c : Ctx) (p data : value).

Lemma spread_lookup (a : gmap string value) p (k : string) :
  spread a p !! k = match own_props p !! k with
                    | Some v => Some v
                    | None => a !! k
                    end.
Proof.
  unfold spread. rewrite lookup_union.
  destruct (own_props p !! k), (a !! k); reflexivity.
Qed.

Lemma is_str_true (t : value) (lit : string) :
  is_str t lit = true <-> t = JStr lit.
Proof.
  destruct t; simpl; try (split; [discriminate | congruence]).
  rewrite String.eqb_eq. split; congruence.
Qed.

Lemma is_str_unrecognized (tags : list string) (t : value) (lit : string) :
  unrecognized tags t -> lit ∈ tags -> is_str t lit = false.
Proof.
  intros Hun Hin. apply not_true_is_false. rewrite is_str_true.
  unfold unrecognized in Hun. rewrite Forall_forall in Hun.
  by apply Hun.
Qed.

(** The store starts with 31 bands and 31 gains. *)
Lemma initial_lengths :
  array_length (frequencyBands initialState) = Some 31%nat
  /\ array_length (eqGains initialState) = Some 31%nat.
Proof. split; reflexivity. Qed.

(** C3, as stated, fails: a one-element payload is stored as it is, and the
    stored gains then have length 1, not 31. *)
Lemma update_eq_gains_keeps_short_payload :
  let s' := audioReducer initialState (mkAction "UPDATE_EQ_GAINS" (JArr [int 3])) in
  eqGains s' = JArr [int 3] /\ array_length (eqGains s') <> Some 31%nat.
Proof. split; [reflexivity | discriminate]. Qed.

(** C3, amended: UPDATE_EQ_GAINS stores the payload itself, unvalidated, and
    changes no other field; so the stored gains have length 31 exactly when
    the payload is an array of length 31. *)
Theorem update_eq_gains_replaces s p :
  let s' := audioReducer s (mkAction "UPDATE_EQ_GAINS" p) in
  s' = mkState (isConnected s) (isAnalyzing s) (isProcessing s) (audioData s)
         (analysisResults s) (eqProfile s) (soundstageProfile s)
         (userPreferences s) (frequencyBands s) p (realTimeData s)
  /\ eqGains (store (updateEQGains p (mkCtx s []))) = p
  /\ (array_length (eqGains s') = Some 31%nat <-> array_length p = Some 31%nat).
Proof. repeat split; auto. Qed.

(** C4, as stated, fails: a key that is no field of UserPreferences is
    merged in, and a known key is accepted with a value of the wrong type. *)
Lemma update_preferences_keeps_unknown_key :
  let p := JObj (obj [("volume", int 11); ("bass_preference", JStr "loud")]) in
  let s' := audioReducer initialState (mkAction "UPDATE_USER_PREFERENCES" p) in
  ("volume" ∉ known_preference_keys)
  /\ userPreferences s' !! "volume" = Some (int 11)
  /\ userPreferences s' !! "bass_preference" = Some (JStr "loud").
Proof.
  cbv zeta. split; [| split].
  - unfold known_preference_keys. rewrite elem_of_dom.
    intros [v Hv]. vm_compute in Hv. discriminate Hv.
  - vm_compute. reflexivity.
  - vm_compute. reflexivity.
Qed.

(** C4, amended: UPDATE_USER_PREFERENCES is a shallow merge. Every own
    property of the payload, known or not, is taken over with the payload's
    value as it is; every other key keeps its value; no other field of the
    store changes. *)
Theorem update_preferences_shallow_merge s p :
  let s' := audioReducer s (mkAction "UPDATE_USER_PREFERENCES" p) in
  (forall k, userPreferences s' !! k =
             match own_props p !! k with
             | Some v => Some v
             | None => userPreferences s !! k
             end)
  /\ s' = mkState (isConnected s) (isAnalyzing s) (isProcessing s) (audioData s)
            (analysisResults s) (eqProfile s) (soundstageProfile s)
            (userPreferences s') (frequencyBands s) (eqGains s) (realTimeData s).
Proof.
  split; [| reflexivity].
  intros k. simpl. apply spread_lookup.
Qed.

(** C6: RESET_AUDIO_STATE puts [audioData], [analysisResults], [isAnalyzing]
    and [isProcessing] back to their initial values and leaves every other
    field, [eqGains], [eqProfile], [soundstageProfile] and [userPreferences]
    among them, as it was. *)
Theorem reset_clears_and_preserves s :
  let s' := audioReducer s (mkAction "RESET_AUDIO_STATE" JUndefined) in
  audioData s' = audioData initialState
  /\ analysisResults s' = analysisResults initialState
  /\ isAnalyzing s' = isAnalyzing initialState
  /\ isProcessing s' = isProcessing initialState
  /\ eqGains s' = eqGains s
  /\ eqProfile s' = eqProfile s
  /\ soundstageProfile s' = soundstageProfile s
  /\ userPreferences s' = userPreferences s
  /\ isConnected s' = isConnected s
  /\ frequencyBands s' = frequencyBands s
  /\ realTimeData s' = realTimeData s
  /\ store (resetAudioState (mkCtx s [])) = s'.
Proof. repeat split. Qed.

(** The two dispatches of the [analysis_result] case, and where the second
    one is not reached. *)
Lemma handle_analysis_result data d c :
  get_field data "type" = Some (JStr "analysis_result") ->
  get_field data "data" = Some d ->
  handleWebSocketMessage data c =
    let c1 := dispatch (mkAction "SET_ANALYSIS_RESULTS" d) c in
    match get_field d "acoustic_profile" with
    | None => Thrown c1
    | Some profile => Done (dispatch (mkAction "UPDATE_REAL_TIME_DATA" profile) c1)
    end.
Proof.
  intros Ht Hd. unfold handleWebSocketMessage. rewrite Ht, Hd. reflexivity.
Qed.

(** C5: on an [analysis_result] message the stored analysis result becomes
    the message's [data] itself, and the [acoustic_profile] of that payload
    is merged key by key into [realTimeData]: a key the profile carries takes
    the profile's value, every key it does not carry (all of them when the
    payload has no profile to read) keeps its previous value. *)
Theorem analysis_result_replaces_and_merges c data d :
  get_field data "type" = Some (JStr "analysis_result") ->
  get_field data "data" = Some d ->
  let s := store c in
  let s' := store (ws_onmessage (Some data) c) in
  analysisResults s' = d
  /\ (forall metrics, get_field d "acoustic_profile" = Some metrics ->
        forall k v, own_props metrics !! k = Some v -> realTimeData s' !! k = Some v)
  /\ (forall k,
        (forall metrics, get_field d "acoustic_profile" = Some metrics ->
                         own_props metrics !! k = None) ->
        realTimeData s' !! k = realTimeData s !! k).
Proof.
  intros Ht Hd s s'. subst s s'.
  unfold ws_onmessage, try_catch.
  rewrite (handle_analysis_result data d c Ht Hd). cbv zeta.
  destruct (get_field d "acoustic_profile") as [metrics|] eqn:Hm; simpl.
  - split; [reflexivity | split].
    + intros m' [= <-] k v Hk. rewrite spread_lookup, Hk. reflexivity.
    + intros k Hk. rewrite spread_lookup, (Hk metrics eq_refl). reflexivity.
  - split; [reflexivity | split].
    + intros m' Hm'. discriminate Hm'.
    + reflexivity.
Qed.

Lemma analysis_result_replaces_and_merges_witness :
  let data := JObj (obj [("type", JStr "analysis_result");
                         ("data", JObj (obj [("acoustic_profile",
                            JObj (obj [("stereoWidth", dec 4 5)]))]))]) in
  let s' := store (ws_onmessage (Some data) (mkCtx initialState [])) in
  realTimeData s' !! "stereoWidth" = Some (dec 4 5)
  /\ realTimeData s' !! "noiseFloor" = Some (int (-60)).
Proof.
  cbv zeta.
  pose proof (analysis_result_replaces_and_merges (mkCtx initialState [])
    (JObj (obj [("type", JStr "analysis_result");
                ("data", JObj (obj [("acoustic_profile",
                   JObj (obj [("stereoWidth", dec 4 5)]))]))]))
    (JObj (obj [("acoustic_profile", JObj (obj [("stereoWidth", dec 4 5)]))]))
    eq_refl eq_refl) as (_ & Hin & Hout).
  split.
  - apply (Hin (JObj (obj [("stereoWidth", dec 4 5)])) eq_refl). reflexivity.
  - rewrite Hout; [reflexivity |].
    intros metrics [= <-]. reflexivity.
Defined.

(** The store half of C8: the default case of [handleWebSocketMessage]. *)
Lemma store_ignores_unrecognized data t c :
  get_field data "type" = Some t ->
  unrecognized telemetry_tags t ->
  handleWebSocketMessage data c =
    Done (mkCtx (store c) (trace c ++ [console_log [JStr "Unknown WebSocket message type:"; t]])).
Proof.
  intros Ht Hun. unfold handleWebSocketMessage. rewrite Ht.
  rewrite !(is_str_unrecognized telemetry_tags t) by (done || set_solver).
  reflexivity.
Qed.

End Store.

(** ** Values *)

Section Values.

Lemma vsize_elem (l : list value) (x : value) :
  x ∈ l -> (vsize x < vsize (JArr l))%nat.
Proof.
  simpl. induction 1 as [x l | x y l _ IH]; simpl; lia.
Qed.

Lemma vsize_prop (m : gmap string value) (k : string) (x : value) :
  m !! k = Some x -> (vsize x < vsize (JObj m))%nat.
Proof.
  intros Hk. simpl.
  rewrite (map_fold_delete_L _ _ k x m) by (intros; lia || done). lia.
Qed.

(** Induction on values through the elements of arrays and the properties
    of objects. *)
Lemma value_nested_ind (P : value -> Prop) :
  P JUndefined -> P JNull -> (forall b, P (JBool b)) -> (forall q, P (JNum q)) ->
  (forall s, P (JStr s)) -> (forall n, P (JNonFinite n)) ->
  (forall l, Forall P l -> P (JArr l)) ->
  (forall m, map_Forall (fun _ x => P x) m -> P (JObj m)) ->
  forall v, P v.
Proof.
  intros Hu Hn Hb Hq Hs Hf Ha Ho v.
  remember (vsize v) as n eqn:Hsz. revert v Hsz.
  induction n as [n IH] using lt_wf_ind. intros v ->.
  destruct v as [| | b | q | s | l | m | nf]; auto.
  - apply Ha, Forall_forall. intros x Hx.
    exact (IH _ (vsize_elem l x Hx) x eq_refl).
  - apply Ho. intros k x Hk.
    exact (IH _ (vsize_prop m k x Hk) x eq_refl).
Qed.

Lemma json_clean_props (m : gmap string value) :
  json_clean (JObj m) = true ->
  map_Forall (fun _ x => json_clean x = true) m.
Proof.
  simpl. induction m as [|k x m Hk IH] using map_ind.
  - intros _. apply map_Forall_empty.
  - rewrite map_fold_insert_L; [| | exact Hk].
    + rewrite andb_true_iff. intros [Hx Hm].
      apply map_Forall_insert_2; auto.
    + intros. rewrite !andb_assoc. f_equal. apply andb_comm.
Qed.

(** [JSON.stringify] denotes the value itself when it holds no
    [undefined] and no non-finite number. *)
Lemma JSON_stringify_clean (v : value) :
  json_clean v = true -> JSON_stringify v = Some v.
Proof.
  induction v as [| | b | q | s | nf | l IH | m IH] using value_nested_ind;
    intros Hc; try reflexivity; try discriminate.
  - simpl in *. do 2 f_equal.
    induction IH as [|x l Hx _ IHl]; [reflexivity |].
    simpl in Hc. apply andb_true_iff in Hc as [Hcx Hcl].
    simpl. rewrite (Hx Hcx), (IHl Hcl). reflexivity.
  - pose proof (json_clean_props m Hc) as Hall.
    simpl. do 2 f_equal. apply map_eq. intros k.
    rewrite lookup_omap.
    destruct (m !! k) as [x|] eqn:Hk; [| reflexivity].
    simpl. exact (IH k x Hk (Hall k x Hk)).
Qed.
End Values.

(** ** The socket layer *)

Section Sockets.
Import WebSocketContext.

Implicit Types (s : WebSocketContext.State) (data t : value).

Lemma scheduled_delays_snoc (tr : list effect) (e : effect) :
  scheduled_delays (tr ++ [e]) =
  (scheduled_delays tr ++ match e with set_timeout _ d => [d] | _ => [] end)%list.
Proof.
  unfold scheduled_delays. rewrite omap_app. f_equal. by destruct e.
Qed.

Lemma step_close_audio s ws r code reason :
  sockets s !! ws = Some (mkWebSocket Audio r) -> r <> CLOSED ->
  step (ws_close ws code reason) s =
  audio_onclose code reason (set_readyState ws CLOSED s).
Proof.
  intros Hws Hr. unfold step. rewrite Hws. destruct r; congruence.
Qed.

Lemma step_close_control s ws r code reason :
  sockets s !! ws = Some (mkWebSocket Control r) -> r <> CLOSED ->
  step (ws_close ws code reason) s =
  control_onclose code reason (set_readyState ws CLOSED s).
Proof.
  intros Hws Hr. unfold step. rewrite Hws. destruct r; congruence.
Qed.

Lemma step_timeout_fired s id d :
  timers s !! id = Some d ->
  step (timeout_fired id) s =
  reconnect_callback (set_timers (delete id (timers s)) (nextTimer s) s).
Proof. intros Hd. unfold step. rewrite Hd. reflexivity. Qed.

(** What the close handler of the telemetry socket does below the cap. *)
Lemma audio_onclose_schedules code reason s :
  (reconnectAttempts s < maxReconnectAttempts)%nat ->
  let s' := audio_onclose code reason s in
  reconnectAttempts s' = S (reconnectAttempts s)
  /\ reconnectTimeoutRef s' = Some (nextTimer s)
  /\ timers s' !! nextTimer s = Some (reconnect_delay (reconnectAttempts s))
  /\ scheduled_delays (trace s') =
     (scheduled_delays (trace s) ++ [reconnect_delay (reconnectAttempts s)])%list
  /\ sockets s' = sockets s
  /\ audioWsRef s' = None
  /\ connectionStatus s' = "disconnected".
Proof.
  intros Hlt. destruct s as [ic cs ac lm aref cref tref n socks tm nt tr].
  simpl in Hlt. apply Nat.ltb_lt in Hlt.
  unfold audio_onclose. simpl. rewrite Hlt.
  unfold scheduleReconnect. destruct tref as [old|]; simpl.
  - rewrite lookup_insert_eq, !scheduled_delays_snoc. simpl.
    rewrite !app_nil_r. done.
  - rewrite lookup_insert_eq, !scheduled_delays_snoc. simpl.
    rewrite !app_nil_r. done.
Qed.

(** What the timeout callback does: a fresh telemetry socket, held by the
    ref; the attempt count and the scheduled delays are as before. *)
Lemma reconnect_callback_spec s :
  let s' := reconnect_callback s in
  sockets s' = (sockets s ++ [mkWebSocket Audio CONNECTING])%list
  /\ audioWsRef s' = Some (length (sockets s))
  /\ reconnectAttempts s' = reconnectAttempts s
  /\ scheduled_delays (trace s') = scheduled_delays (trace s).
Proof.
  destruct s as [ic cs ac lm aref cref tref n socks tm nt tr].
  unfold reconnect_callback. simpl.
  rewrite scheduled_delays_snoc, app_nil_r. done.
Qed.

Lemma close_then_retry_spec c s :
  live_audio s ->
  (reconnectAttempts s < maxReconnectAttempts)%nat ->
  let s' := close_then_retry c s in
  live_audio s'
  /\ reconnectAttempts s' = S (reconnectAttempts s)
  /\ scheduled_delays (trace s') =
     (scheduled_delays (trace s) ++ [reconnect_delay (reconnectAttempts s)])%list.
Proof.
  intros (ws & r & Href & Hws & Hr) Hlt.
  unfold close_then_retry. rewrite Href. cbv zeta.
  rewrite (step_close_audio s ws r c.1 c.2 Hws Hr).
  set (s0 := set_readyState ws CLOSED s).
  destruct (audio_onclose_schedules c.1 c.2 s0 Hlt)
    as (Hn & Htref & Htm & Htr & Hsocks & _).
  rewrite Htref, (step_timeout_fired _ _ _ Htm).
  set (s1 := set_timers _ _ _).
  destruct (reconnect_callback_spec s1) as (Hs' & Ha' & Hn' & Htr').
  split; [| split].
  - exists (length (sockets s1)), CONNECTING.
    rewrite Ha', Hs'. split; [done |]. split; [| done].
    by rewrite lookup_app_r, Nat.sub_diag.
  - rewrite Hn'. exact Hn.
  - rewrite Htr'. exact Htr.
Qed.
Lemma consecutive_closes_from cs : forall s,
  live_audio s ->
  (reconnectAttempts s + length cs <= maxReconnectAttempts)%nat ->
  let s' := consecutive_closes cs s in
  live_audio s'
  /\ reconnectAttempts s' = (reconnectAttempts s + length cs)%nat
  /\ scheduled_delays (trace s') =
     (scheduled_delays (trace s)
        ++ (reconnect_delay <$> seq (reconnectAttempts s) (length cs)))%list.
Proof.
  induction cs as [|c cs IH]; intros s Hlive Hle; simpl in *.
  - rewrite Nat.add_0_r, app_nil_r. done.
  - destruct (close_then_retry_spec c s Hlive) as (Hlive1 & Hn1 & Htr1); [lia |].
    destruct (IH (close_then_retry c s) Hlive1) as (Hlive' & Hn' & Htr'); [lia |].
    split; [exact Hlive' | split].
    + rewrite Hn', Hn1. lia.
    + rewrite Htr', Htr1, Hn1, <- app_assoc. reflexivity.
Qed.

Lemma backoff_prefix (n : nat) :
  (n <= 5)%nat ->
  reconnect_delay <$> seq 0 n = take n [1000; 2000; 4000; 8000; 16000]%Z.
Proof.
  intros Hn.
  do 6 (destruct n as [|n]; [reflexivity |]). lia.
Qed.

(** C1: from an attempt count of 0, N consecutive unplanned closes of the
    telemetry channel, N at most the cap of 5, schedule exactly the first N
    of the delays 1000, 2000, 4000, 8000, 16000 ms, in this order; the k-th
    of them (from 0) is min(1000 * 2^k, 30000); and the attempt count after
    the first k closes is k, one more per scheduled attempt. *)
Theorem reconnect_backoff_sequence (cs : list (Z * string)) s :
  live_audio s ->
  reconnectAttempts s = 0%nat ->
  (length cs <= maxReconnectAttempts)%nat ->
  let s' := consecutive_closes cs s in
  scheduled_delays (trace s') =
    (scheduled_delays (trace s) ++ take (length cs) [1000; 2000; 4000; 8000; 16000]%Z)%list
  /\ (forall k, (k < length cs)%nat ->
        take (length cs) [1000; 2000; 4000; 8000; 16000]%Z !! k
        = Some (Z.min (1000 * 2 ^ Z.of_nat k) 30000))
  /\ (forall k, (k <= length cs)%nat ->
        reconnectAttempts (consecutive_closes (take k cs) s) = k).
Proof.
  intros Hlive H0 Hle. cbv zeta. split; [| split].
  - destruct (consecutive_closes_from cs s Hlive) as (_ & _ & Htr).
    { rewrite H0. exact Hle. }
    rewrite Htr, H0. f_equal. apply backoff_prefix. exact Hle.
  - intros k Hk. rewrite <- backoff_prefix by exact Hle.
    rewrite list_lookup_fmap, lookup_seq_lt by exact Hk. reflexivity.
  - intros k Hk.
    destruct (consecutive_closes_from (take k cs) s Hlive) as (_ & Hn & _).
    { rewrite H0, length_take. unfold maxReconnectAttempts in *. lia. }
    rewrite Hn, H0, length_take. lia.
Qed.

Lemma reconnect_backoff_sequence_witness :
  let s' := consecutive_closes [(1006, EmptyString); (1006, EmptyString); (1001, "going away")]%Z mounted in
  scheduled_delays (trace s') = [1000; 2000; 4000]%Z
  /\ reconnectAttempts s' = 3%nat.
Proof.
  assert (Hlive : live_audio mounted).
  { exists 0%nat, CONNECTING. split; [reflexivity | split; [reflexivity | discriminate]]. }
  assert (Hle : (length [(1006, EmptyString); (1006, EmptyString); (1001, "going away")]%Z
                 <= maxReconnectAttempts)%nat).
  { unfold maxReconnectAttempts. simpl. lia. }
  destruct (reconnect_backoff_sequence
              [(1006, EmptyString); (1006, EmptyString); (1001, "going away")]%Z mounted
              Hlive eq_refl Hle) as (Hd & _ & Hn).
  split; [exact Hd | exact (Hn 3%nat (le_n 3))].
Defined.

Lemma open_socket_is_open ref s ws :
  open_socket ref s = Some ws ->
  ref = Some ws /\ exists c, sockets s !! ws = Some (mkWebSocket c OPEN).
Proof.
  unfold open_socket. destruct ref as [h|]; [| discriminate].
  destruct (sockets s !! h) as [[c []]|] eqn:Hh; try discriminate.
  intros [= <-]. eauto.
Qed.

Lemma sent_snoc (tr : list effect) (e : effect) :
  sent (tr ++ [e]) =
  (sent tr ++ match e with ws_send ws f => [(ws, f)] | _ => [] end)%list.
Proof. unfold sent. rewrite omap_app. f_equal. by destruct e. Qed.

(** C7, as stated, fails: with the control channel connected, a profile
    whose gain lies outside [-12, +12] is sent as it is; the [eq_profile] of
    the one message differs from the range-validated profile. *)
Lemma enableEQ_sends_out_of_range_gain :
  let s := run [ws_open 1] mounted in
  let profile := JObj (obj [("gains", JArr [AudioContext.int 40])]) in
  open_socket (controlWsRef s) s = Some 1%nat
  /\ sent (trace (enableEQ profile s)) =
     [(1%nat, JsonText (JObj (obj [("type", JStr "enable_eq"); ("eq_profile", profile)])))]
  /\ spec_range_validated profile = JObj (obj [("gains", JArr [AudioContext.int 12])])
  /\ profile <> spec_range_validated profile.
Proof.
  cbv zeta. split; [reflexivity | split; [reflexivity | split; [reflexivity |]]].
  intros H.
  apply (f_equal (fun v => match v with JObj m => m !! "gains" | _ => None end)) in H.
  vm_compute in H. discriminate H.
Qed.

(** C7, amended: with the control channel connected, [enableEQ(profile)]
    writes exactly one message, on the control socket, and changes nothing
    else. The message is the JSON text of an object with the two fields
    [type], the string enable_eq, and [eq_profile], the JSON form of the
    supplied profile as given, with no range validation: when the profile
    holds no [undefined] and no non-finite number, [eq_profile] equals it;
    otherwise [undefined] properties are left out and [NaN], [Infinity] and
    [-Infinity] arrive as [null]. *)
Theorem enableEQ_sends_profile_verbatim s ws profile :
  open_socket (controlWsRef s) s = Some ws ->
  let s' := enableEQ profile s in
  exists msg,
    s' = emit (ws_send ws (JsonText (JObj msg))) s
    /\ sent (trace s') = (sent (trace s) ++ [(ws, JsonText (JObj msg))])%list
    /\ msg !! "type" = Some (JStr "enable_eq")
    /\ msg !! "eq_profile" = JSON_stringify profile
    /\ (forall k, k <> "type" -> k <> "eq_profile" -> msg !! k = None)
    /\ (json_clean profile = true -> msg !! "eq_profile" = Some profile).
Proof.
  intros Hopen. cbv zeta.
  exists (omap JSON_stringify (obj [("type", JStr "enable_eq"); ("eq_profile", profile)])).
  assert (Hs : enableEQ profile s =
    emit (ws_send ws (JsonText (JObj (omap JSON_stringify
      (obj [("type", JStr "enable_eq"); ("eq_profile", profile)]))))) s).
  { unfold enableEQ, sendControlCommand. rewrite Hopen. reflexivity. }
  assert (Hp : omap JSON_stringify
      (obj [("type", JStr "enable_eq"); ("eq_profile", profile)]) !! "eq_profile"
      = JSON_stringify profile).
  { rewrite lookup_omap. unfold obj. simpl. by rewrite lookup_insert_eq. }
  split; [exact Hs |]. split.
  { rewrite Hs. destruct s. simpl. by rewrite sent_snoc. }
  split.
  { rewrite lookup_omap. unfold obj. simpl.
    rewrite lookup_insert_ne by done. by rewrite lookup_insert_eq. }
  split; [exact Hp |]. split.
  { intros k Hk1 Hk2. rewrite lookup_omap. unfold obj. simpl.
    rewrite !lookup_insert_ne by done. by rewrite lookup_empty. }
  intros Hc. rewrite Hp. by apply JSON_stringify_clean.
Qed.

Lemma enableEQ_sends_profile_verbatim_witness :
  let s := run [ws_open 1] mounted in
  let profile := JObj (obj [
    ("name", JStr "EQ_2024-01-01");
    ("frequency_bands", AudioContext.frequencyBands AudioContext.initialState);
    ("gains", AudioContext.eqGains AudioContext.initialState);
    ("q_factors", JArr (replicate 31 (AudioContext.int 1)));
    ("filter_types", JArr (replicate 31 (JStr "peaking")));
    ("user_preferences", JObj (AudioContext.userPreferences AudioContext.initialState));
    ("acoustic_compensation", JObj (obj []))]) in
  exists msg,
    sent (trace (enableEQ profile s)) = [(1%nat, JsonText (JObj msg))]
    /\ msg !! "type" = Some (JStr "enable_eq")
    /\ msg !! "eq_profile" = Some profile.
Proof.
  cbv zeta.
  destruct (enableEQ_sends_profile_verbatim (run [ws_open 1] mounted) 1%nat
    (JObj (obj [
      ("name", JStr "EQ_2024-01-01");
      ("frequency_bands", AudioContext.frequencyBands AudioContext.initialState);
      ("gains", AudioContext.eqGains AudioContext.initialState);
      ("q_factors", JArr (replicate 31 (AudioContext.int 1)));
      ("filter_types", JArr (replicate 31 (JStr "peaking")));
      ("user_preferences", JObj (AudioContext.userPreferences AudioContext.initialState));
      ("acoustic_compensation", JObj (obj []))]))
    eq_refl) as (msg & _ & Hsent & Htype & _ & _ & Hclean).
  exists msg. split; [exact Hsent | split; [exact Htype |]].
  apply Hclean. vm_compute. reflexivity.
Defined.

(** Where the sent profile is not the supplied one: a preference that
    [parseInt] has turned into [NaN] goes out as [null]. *)
Lemma enableEQ_writes_nan_as_null :
  let s := run [ws_open 1] mounted in
  let profile := JObj (obj [("user_preferences",
                   JObj (obj [("speaker_count", JNonFinite NaN)]))]) in
  json_clean profile = false
  /\ sent (trace (enableEQ profile s)) =
     [(1%nat, JsonText (JObj (obj [("type", JStr "enable_eq");
        ("eq_profile", JObj (obj [("user_preferences",
           JObj (obj [("speaker_count", JNull)]))]))])))].
Proof. cbv zeta. split; reflexivity. Qed.

(** No handler ever calls [connectControlWebSocket]: once the control ref
    is empty it stays empty, whatever happens next. *)
Lemma step_controlWsRef_None e s :
  controlWsRef s = None -> controlWsRef (step e s) = None.
Proof.
  destruct s as [ic cs ac lm aref cref tref n socks tm nt tr].
  simpl. intros ->.
  destruct e; unfold step, audio_onopen, control_onopen, audio_onmessage,
    control_onmessage, audio_onerror, control_onerror, audio_onclose,
    control_onclose, try_catch, handleAudioMessage, handleControlMessage,
    scheduleReconnect, reconnect_callback, ping_interval_callback, ping;
    simpl; repeat (case_match; simplify_eq/=; try reflexivity).
Qed.

Lemma run_controlWsRef_None es : forall s,
  controlWsRef s = None -> controlWsRef (run es s) = None.
Proof.
  induction es as [|e es IH]; intros s Hs; simpl; [exact Hs |].
  apply IH, step_controlWsRef_None, Hs.
Qed.

(** The close handler of the telemetry socket touches nothing of the
    control channel, below the cap or at it. *)
Lemma audio_onclose_frame code reason s :
  let s' := audio_onclose code reason s in
  controlWsRef s' = controlWsRef s
  /\ isConnected s' = isConnected s
  /\ activeConnections s' = activeConnections s
  /\ sockets s' = sockets s.
Proof.
  destruct s as [ic cs ac lm aref cref tref n socks tm nt tr].
  unfold audio_onclose, scheduleReconnect. simpl.
  destruct (n <? maxReconnectAttempts)%nat; [destruct tref |]; done.
Qed.

(** C2, as stated, fails for the control channel: its close handler
    schedules nothing. After the control socket has opened and closed, with
    the attempt count at 0, no timeout is pending, none was ever requested,
    and the control ref is empty. *)
Lemma control_close_schedules_no_reconnect :
  let s := run [ws_open 1] mounted in
  let s' := step (ws_close 1 1006 EmptyString) s in
  sockets s !! 1%nat = Some (mkWebSocket Control OPEN)
  /\ (reconnectAttempts s < maxReconnectAttempts)%nat
  /\ timers s' = ∅
  /\ scheduled_delays (trace s') = []
  /\ controlWsRef s' = None
  /\ sockets s' = [mkWebSocket Audio CONNECTING; mkWebSocket Control CLOSED].
Proof.
  cbv zeta. split; [reflexivity |]. split; [vm_compute; lia |].
  repeat split.
Qed.

(** C2, amended: a close of the telemetry socket below the cap schedules one
    reconnect (a pending timeout with the backoff delay, the attempt count
    one higher) and leaves the control channel's ref, flag and sockets as
    they were. A close of the control socket empties the control ref and
    clears its flag, schedules nothing, and no later event brings a control
    socket back; it leaves the telemetry ref, status, attempt count, pending
    timeouts and sockets as they were. Both handlers return normally. *)
Theorem close_recovery_per_channel s ws c r code reason :
  sockets s !! ws = Some (mkWebSocket c r) ->
  r <> CLOSED ->
  let s' := step (ws_close ws code reason) s in
  (forall ws', ws' <> ws -> sockets s' !! ws' = sockets s !! ws')
  /\ match c with
     | Audio =>
       controlWsRef s' = controlWsRef s
       /\ isConnected s' = isConnected s
       /\ activeConnections s' = activeConnections s
       /\ ((reconnectAttempts s < maxReconnectAttempts)%nat ->
           reconnectAttempts s' = S (reconnectAttempts s)
           /\ exists id, reconnectTimeoutRef s' = Some id
                /\ timers s' !! id = Some (reconnect_delay (reconnectAttempts s)))
     | Control =>
       controlWsRef s' = None
       /\ isConnected s' = false
       /\ audioWsRef s' = audioWsRef s
       /\ connectionStatus s' = connectionStatus s
       /\ reconnectAttempts s' = reconnectAttempts s
       /\ reconnectTimeoutRef s' = reconnectTimeoutRef s
       /\ timers s' = timers s
       /\ scheduled_delays (trace s') = scheduled_delays (trace s)
       /\ (forall es, controlWsRef (run es s') = None)
     end.
Proof.
  intros Hws Hr. cbv zeta. destruct c.
  - rewrite (step_close_audio s ws r code reason Hws Hr).
    set (s0 := set_readyState ws CLOSED s).
    destruct (audio_onclose_frame code reason s0) as (Hc & Hi & Ha & Hs).
    split.
    { intros ws' Hne. rewrite Hs. destruct s. simpl.
      by apply list_lookup_alter_ne. }
    rewrite Hc, Hi, Ha.
    do 3 (split; [by destruct s |]).
    intros Hlt.
    destruct (audio_onclose_schedules code reason s0 Hlt)
      as (Hn & Htref & Htm & _).
    split; [exact Hn |].
    exists (nextTimer s0). split; [exact Htref | exact Htm].
  - rewrite (step_close_control s ws r code reason Hws Hr).
    split.
    { intros ws' Hne. destruct s. simpl. by apply list_lookup_alter_ne. }
    repeat split; try (by destruct s).
    + destruct s. simpl. by rewrite scheduled_delays_snoc, app_nil_r.
    + intros es. apply run_controlWsRef_None. by destruct s.
Qed.

Lemma close_recovery_per_channel_witness :
  let s' := step (ws_close 0 1006 EmptyString) mounted in
  reconnectAttempts s' = 1%nat
  /\ (exists id, reconnectTimeoutRef s' = Some id /\ timers s' !! id = Some 1000%Z)
  /\ controlWsRef s' = Some 1%nat.
Proof.
  cbv zeta.
  assert (Hr : CONNECTING <> CLOSED) by discriminate.
  assert (Hlt : (reconnectAttempts mounted < maxReconnectAttempts)%nat).
  { unfold maxReconnectAttempts. simpl. lia. }
  destruct (close_recovery_per_channel mounted 0%nat Audio CONNECTING 1006 EmptyString
              eq_refl Hr) as (_ & Hc & _ & _ & Hsched).
  destruct (Hsched Hlt) as (Hn & Hid).
  split; [exact Hn | split; [exact Hid | exact Hc]].
Defined.

(** C8: a message whose [type] is none of the handler's [case] labels
    changes nothing and raises nothing. In the store provider the store is
    left as it was; in the socket provider the two handlers leave the whole
    state as it was; the only effect, each time, is one console line that
    names the type. *)
Theorem unrecognized_type_dropped data t :
  get_field data "type" = Some t ->
  (unrecognized telemetry_tags t ->
     (forall c,
        AudioContext.handleWebSocketMessage data c =
          Done (AudioContext.mkCtx (AudioContext.store c)
                  (AudioContext.trace c
                     ++ [console_log [JStr "Unknown WebSocket message type:"; t]]))
        /\ AudioContext.store (AudioContext.ws_onmessage (Some data) c)
           = AudioContext.store c)
     /\ (forall s,
          handleAudioMessage data s =
            Done (emit (console_log [JStr "Unknown audio message type:"; t]) s)))
  /\ (unrecognized control_tags t ->
       forall s,
         handleControlMessage data s =
           Done (emit (console_log [JStr "Unknown control message type:"; t]) s)
         /\ control_onmessage (Some data) s =
            emit (console_log [JStr "Unknown control message type:"; t]) s).
Proof.
  intros Ht. split.
  - intros Hun. split.
    + intros c.
      pose proof (store_ignores_unrecognized data t c Ht Hun) as Hs.
      split; [exact Hs |].
      unfold AudioContext.ws_onmessage, try_catch. rewrite Hs. reflexivity.
    + intros s. unfold handleAudioMessage. rewrite Ht.
      rewrite !(is_str_unrecognized telemetry_tags t) by (done || set_solver).
      reflexivity.
  - intros Hun s.
    assert (Hc : handleControlMessage data s =
      Done (emit (console_log [JStr "Unknown control message type:"; t]) s)).
    { unfold handleControlMessage. rewrite Ht.
      rewrite !(is_str_unrecognized control_tags t) by (done || set_solver).
      reflexivity. }
    split; [exact Hc |].
    unfold control_onmessage, try_catch. rewrite Hc. reflexivity.
Qed.

Lemma unrecognized_type_dropped_witness :
  let data := JObj (obj [("type", JStr "volume_changed"); ("data", JNull)]) in
  AudioContext.store
    (AudioContext.ws_onmessage (Some data)
       (AudioContext.mkCtx AudioContext.initialState []))
  = AudioContext.initialState
  /\ control_onmessage (Some data) mounted =
     emit (console_log [JStr "Unknown control message type:"; JStr "volume_changed"])
       mounted.
Proof.
  cbv zeta.
  assert (Htel : unrecognized telemetry_tags (JStr "volume_changed")).
  { unfold unrecognized, telemetry_tags. repeat constructor; discriminate. }
  assert (Hctl : unrecognized control_tags (JStr "volume_changed")).
  { unfold unrecognized, control_tags. repeat constructor; discriminate. }
  destruct (unrecognized_type_dropped
              (JObj (obj [("type", JStr "volume_changed"); ("data", JNull)]))
              (JStr "volume_changed") eq_refl) as (Ha & Hb).
  destruct (Ha Htel) as (Hstore & _).
  split.
  - exact (proj2 (Hstore (AudioContext.mkCtx AudioContext.initialState []))).
  - exact (proj2 (Hb Hctl mounted)).
Defined.

(** C9, as stated, fails: with the telemetry socket open and the channel
    marked connected, but the control channel not yet open, the interval
    callback sends nothing. *)
Lemma no_ping_while_control_is_down :
  let s := run [ws_open 0] mounted in
  open_socket (audioWsRef s) s = Some 0%nat
  /\ connectionStatus s = "connected"
  /\ isConnected s = false
  /\ step ping_interval_tick s = s
  /\ sent (trace (step ping_interval_tick s)) = [].
Proof. cbv zeta. repeat split. Qed.

(** C9, amended: the interval callback, registered with a period of 30000
    ms, sends the one string ping on the telemetry socket exactly when the
    provider's [isConnected] flag (set by the control socket's open and
    close handlers) is true and the telemetry socket is open, and does
    nothing otherwise; neither the callback nor [ping] changes the reconnect
    attempt count, the timeout ref or the pending timeouts. *)
Theorem ping_tick_gated_and_decoupled s :
  let s' := step ping_interval_tick s in
  pingIntervalMs = 30000%Z
  /\ s' = match (if isConnected s then open_socket (audioWsRef s) s else None) with
          | Some ws => emit (ws_send ws (Text "ping")) s
          | None => s
          end
  /\ reconnectAttempts s' = reconnectAttempts s
  /\ reconnectTimeoutRef s' = reconnectTimeoutRef s
  /\ timers s' = timers s
  /\ reconnectAttempts (ping s) = reconnectAttempts s
  /\ reconnectTimeoutRef (ping s) = reconnectTimeoutRef s
  /\ timers (ping s) = timers s.
Proof.
  cbv zeta. unfold step, ping_interval_callback, ping, send.
  destruct (isConnected s), (open_socket (audioWsRef s) s);
    destruct s; repeat split.
Qed.

(** C10: while the telemetry socket is absent or not OPEN, each of [ping],
    [getStatus], [toggleAnalysis] and [clearBuffer] returns the state it was
    given: nothing is written, nothing is logged, nothing is raised. A
    control command sent while the control socket is absent or not OPEN
    writes nothing either, but logs one warning. *)
Theorem telemetry_commands_silent_when_closed s :
  (audioWsRef s = None
   \/ exists ws, audioWsRef s = Some ws
        /\ forall c, sockets s !! ws <> Some (mkWebSocket c OPEN)) ->
  ping s = s /\ getStatus s = s /\ toggleAnalysis s = s /\ clearBuffer s = s
  /\ (forall command,
        (controlWsRef s = None
         \/ exists ws, controlWsRef s = Some ws
              /\ forall c, sockets s !! ws <> Some (mkWebSocket c OPEN)) ->
        sendControlCommand command s =
          emit (console_warn "Control WebSocket not connected") s
        /\ sent (trace (sendControlCommand command s)) = sent (trace s)).
Proof.
  assert (Hclosed : forall ref,
    (ref = None \/ exists ws, ref = Some ws
        /\ forall c, sockets s !! ws <> Some (mkWebSocket c OPEN)) ->
    open_socket ref s = None).
  { intros ref [-> | (ws & -> & Hno)]; [reflexivity |].
    unfold open_socket.
    destruct (sockets s !! ws) as [[c []]|] eqn:Hws; try reflexivity.
    exfalso. exact (Hno c eq_refl). }
  intros Ha. apply Hclosed in Ha.
  unfold ping, getStatus, toggleAnalysis, clearBuffer. rewrite Ha.
  do 4 (split; [reflexivity |]).
  intros command Hc. apply Hclosed in Hc.
  unfold sendControlCommand. rewrite Hc. split; [reflexivity |].
  destruct s. simpl. by rewrite sent_snoc, app_nil_r.
Qed.

Lemma telemetry_commands_silent_when_closed_witness :
  ping mounted = mounted /\ getStatus mounted = mounted
  /\ toggleAnalysis mounted = mounted /\ clearBuffer mounted = mounted
  /\ trace (disableEQ mounted) = [console_warn "Control WebSocket not connected"].
Proof.
  assert (Ha : audioWsRef mounted = None
    \/ exists ws, audioWsRef mounted = Some ws
         /\ forall c, sockets mounted !! ws <> Some (mkWebSocket c OPEN)).
  { right. exists 0%nat. split; [reflexivity |]. intros c. discriminate. }
  assert (Hc : controlWsRef mounted = None
    \/ exists ws, controlWsRef mounted = Some ws
         /\ forall c, sockets mounted !! ws <> Some (mkWebSocket c OPEN)).
  { right. exists 1%nat. split; [reflexivity |]. intros c. discriminate. }
  destruct (telemetry_commands_silent_when_closed mounted Ha)
    as (Hp & Hg & Ht & Hb & Hw).
  repeat (split; [assumption |]).
  destruct (Hw (JObj (obj [("type", JStr "disable_eq")])) Hc) as (Heq & _).
  unfold disableEQ. rewrite Heq. reflexivity.
Defined.

End Sockets.

(** ** The socket provider over whole runs *)

Section SocketRuns.
Import WebSocketContext WebSocketLifecycle.

Implicit Types (s : WebSocketContext.State) (e : event) (c : command).

Lemma same_wiring_well_formed s s' :
  same_wiring s s' -> well_formed s -> well_formed s'.
Proof.
  intros (Ha & Hc & Ht & Hn & Hs & Hm & _) (Wa & Wc & Wt & Wn).
  unfold well_formed. rewrite Ha, Hc, Ht, Hn, Hs, Hm. done.
Qed.

Ltac wiring :=
  intros; match goal with s : State |- _ => destruct s end;
  unfold same_wiring, audio_onmessage, control_onmessage, try_catch,
    handleAudioMessage, handleControlMessage, audio_onerror, control_onerror,
    control_onopen, ping_interval_callback, call, ping, getStatus,
    toggleAnalysis, clearBuffer, sendAudioData, setPreferences, enableEQ,
    disableEQ, enableSoundstage, disableSoundstage, getConnectionInfo,
    sendControlCommand, send;
  simpl; repeat (case_match; simplify_eq/=); done.

Lemma audio_onmessage_wiring parsed s : same_wiring s (audio_onmessage parsed s).
Proof. wiring. Qed.

Lemma control_onmessage_wiring parsed s : same_wiring s (control_onmessage parsed s).
Proof. wiring. Qed.

Lemma audio_onerror_wiring s : same_wiring s (audio_onerror s).
Proof. wiring. Qed.

Lemma control_onerror_wiring s : same_wiring s (control_onerror s).
Proof. wiring. Qed.

Lemma control_onopen_wiring s : same_wiring s (control_onopen s).
Proof. wiring. Qed.

Lemma ping_interval_wiring s : same_wiring s (ping_interval_callback s).
Proof. wiring. Qed.

Lemma call_wiring c s : same_wiring s (call c s).
Proof. destruct c; wiring. Qed.

Lemma set_readyState_handlers ws r s ws' ch r0 :
  sockets s !! ws' = Some (mkWebSocket ch r0) ->
  exists r', sockets (set_readyState ws r s) !! ws' = Some (mkWebSocket ch r').
Proof.
  intros Hws. destruct s as [ic cs ac lm aref cref tref n socks tm nt tr].
  simpl in *. destruct (decide (ws = ws')) as [->|Hne].
  - rewrite list_lookup_alter_eq, Hws. simpl. eauto.
  - rewrite list_lookup_alter_ne by done. eauto.
Qed.

Lemma set_readyState_well_formed ws r s :
  well_formed s -> well_formed (set_readyState ws r s).
Proof.
  intros (Wa & Wc & Wt & Wn). split; [| split; [| split]].
  - intros h Hh. destruct (Wa h) as [r0 Hr0]; [by destruct s |].
    by apply set_readyState_handlers with r0.
  - intros h Hh. destruct (Wc h) as [r0 Hr0]; [by destruct s |].
    by apply set_readyState_handlers with r0.
  - destruct s. exact Wt.
  - destruct s. exact Wn.
Qed.

Lemma audio_onopen_well_formed s : well_formed s -> well_formed (audio_onopen s).
Proof.
  intros (Wa & Wc & Wt & Wn). destruct s. unfold well_formed, audio_onopen.
  simpl in *. repeat split; try done. unfold maxReconnectAttempts. lia.
Qed.

Lemma control_onclose_well_formed code reason s :
  well_formed s -> well_formed (control_onclose code reason s).
Proof.
  intros (Wa & Wc & Wt & Wn). destruct s. unfold well_formed, control_onclose.
  simpl in *. repeat split; try done.
Qed.

Lemma audio_onclose_well_formed code reason s :
  well_formed s -> well_formed (audio_onclose code reason s).
Proof.
  intros (Wa & Wc & Wt & Wn).
  destruct s as [ic cs ac lm aref cref tref n socks tm nt tr].
  unfold well_formed, audio_onclose, scheduleReconnect in *. simpl in *.
  destruct (n <? maxReconnectAttempts)%nat eqn:Hlt.
  - apply Nat.ltb_lt in Hlt. unfold maxReconnectAttempts in *.
    destruct tref as [old|]; simpl; (split; [done |]); (split; [done |]);
      (split; [| lia]); intros id d Hid.
    + destruct (decide (nt = id)) as [->|Hne]; [done |].
      rewrite lookup_insert_ne in Hid by done.
      destruct (decide (old = id)) as [->|Hne'].
      * by rewrite lookup_delete_eq in Hid.
      * rewrite lookup_delete_ne in Hid by done.
        apply Wt in Hid. congruence.
    + destruct (decide (nt = id)) as [->|Hne]; [done |].
      rewrite lookup_insert_ne in Hid by done.
      apply Wt in Hid. discriminate.
  - simpl. repeat split; try done.
Qed.

Lemma reconnect_callback_well_formed id s :
  well_formed s ->
  well_formed (reconnect_callback (set_timers (delete id (timers s)) (nextTimer s) s)).
Proof.
  intros (Wa & Wc & Wt & Wn).
  destruct s as [ic cs ac lm aref cref tref n socks tm nt tr].
  unfold well_formed, reconnect_callback, connectAudioWebSocket in *. simpl in *.
  split; [| split; [| split]]; try done.
  - intros ws [= <-]. exists CONNECTING.
    by rewrite lookup_app_r, Nat.sub_diag.
  - intros ws Hws. destruct (Wc ws Hws) as [r Hr]. exists r.
    by apply lookup_app_l_Some.
  - intros id' d Hid. apply lookup_delete_Some in Hid as [_ Hid]. eauto.
Qed.

Lemma step_well_formed e s : well_formed s -> well_formed (step e s).
Proof.
  intros W. destruct e as [ws | ws parsed | ws | ws code reason | id |]; simpl.
  - destruct (sockets s !! ws) as [[ch []]|]; try done; destruct ch.
    + by apply audio_onopen_well_formed, set_readyState_well_formed.
    + eapply same_wiring_well_formed; [apply control_onopen_wiring |].
      by apply set_readyState_well_formed.
  - destruct (sockets s !! ws) as [[ch []]|]; try done; destruct ch.
    + eapply same_wiring_well_formed; [apply audio_onmessage_wiring | done].
    + eapply same_wiring_well_formed; [apply control_onmessage_wiring | done].
  - destruct (sockets s !! ws) as [[ch r]|]; try done; destruct ch.
    + eapply same_wiring_well_formed; [apply audio_onerror_wiring | done].
    + eapply same_wiring_well_formed; [apply control_onerror_wiring | done].
  - destruct (sockets s !! ws) as [[ch r]|]; try done.
    destruct r; try done; destruct ch;
      (apply audio_onclose_well_formed || apply control_onclose_well_formed);
      by apply set_readyState_well_formed.
  - destruct (timers s !! id); [| done].
    by apply reconnect_callback_well_formed.
  - eapply same_wiring_well_formed; [apply ping_interval_wiring | done].
Qed.

Lemma mounted_well_formed : well_formed mounted.
Proof.
  split; [| split; [| split]].
  - intros ws [= <-]. by exists CONNECTING.
  - intros ws [= <-]. by exists CONNECTING.
  - intros id d Hid. vm_compute in Hid. discriminate Hid.
  - vm_compute. lia.
Qed.

(** Whatever the browser delivers and whatever consumers call, the provider
    keeps its shape. *)
Lemma drive_well_formed ins : forall s,
  well_formed s -> well_formed (drive ins s).
Proof.
  induction ins as [|i ins IH]; intros s W; simpl; [done |].
  apply IH. destruct i as [e|c]; simpl.
  - by apply step_well_formed.
  - eapply same_wiring_well_formed; [apply call_wiring | done].
Qed.

(** X1: in every state reached from the mounted provider, by any events and
    any calls, the attempt count is at most 5, at most one timeout is
    pending, and a pending timeout is the one the timeout ref holds. *)
Theorem at_most_one_pending_reconnect ins :
  let s := drive ins mounted in
  (reconnectAttempts s <= 5)%nat
  /\ (forall id d, timers s !! id = Some d -> reconnectTimeoutRef s = Some id)
  /\ (forall id1 d1 id2 d2,
        timers s !! id1 = Some d1 -> timers s !! id2 = Some d2 -> id1 = id2).
Proof.
  destruct (drive_well_formed ins mounted mounted_well_formed)
    as (_ & _ & Wt & Wn).
  cbv zeta. split; [exact Wn | split; [exact Wt |]].
  intros id1 d1 id2 d2 H1 H2. apply Wt in H1, H2. congruence.
Qed.

Lemma reconnect_delay_below_cap (n : nat) :
  (n < maxReconnectAttempts)%nat -> reconnect_delay n ∈ backoff_delays.
Proof.
  unfold maxReconnectAttempts, backoff_delays. intros Hn.
  do 5 (destruct n as [|n]; [set_solver |]). lia.
Qed.

Ltac unfold_handlers :=
  unfold step, audio_onopen, control_onopen, audio_onmessage,
    control_onmessage, audio_onerror, control_onerror, audio_onclose,
    control_onclose, try_catch, handleAudioMessage, handleControlMessage,
    scheduleReconnect, reconnect_callback, ping_interval_callback, call, ping,
    getStatus, toggleAnalysis, clearBuffer, sendAudioData, setPreferences,
    enableEQ, disableEQ, enableSoundstage, disableSoundstage,
    getConnectionInfo, sendControlCommand, send.

Lemma step_schedules_at_most_once e s :
  scheduled_delays (trace (step e s)) = scheduled_delays (trace s)
  \/ ((reconnectAttempts s < maxReconnectAttempts)%nat
      /\ scheduled_delays (trace (step e s)) =
         (scheduled_delays (trace s) ++ [reconnect_delay (reconnectAttempts s)])%list).
Proof.
  destruct s as [ic cs ac lm aref cref tref n socks tm nt tr].
  destruct e; unfold_handlers; simpl;
    repeat (case_match; simplify_eq/=);
    rewrite ?scheduled_delays_snoc; simpl; rewrite ?app_nil_r;
    try (by left); right; split; try done; by apply Nat.ltb_lt.
Qed.

Lemma step_scheduled_delays e s :
  exists ds,
    scheduled_delays (trace (step e s)) = (scheduled_delays (trace s) ++ ds)%list
    /\ Forall (fun d => d ∈ backoff_delays) ds.
Proof.
  destruct (step_schedules_at_most_once e s) as [Heq | (Hlt & Heq)].
  - exists []. split; [by rewrite app_nil_r | by constructor].
  - eexists [_]. split; [exact Heq |].
    constructor; [by apply reconnect_delay_below_cap | constructor].
Qed.

Lemma call_scheduled_delays c s :
  scheduled_delays (trace (call c s)) = scheduled_delays (trace s).
Proof.
  destruct s as [ic cs ac lm aref cref tref n socks tm nt tr].
  destruct c; unfold_handlers; simpl;
    repeat (case_match; simplify_eq/=);
    rewrite ?scheduled_delays_snoc; simpl; by rewrite ?app_nil_r.
Qed.

(** X2: whatever the starting state, the events and the calls, every delay
    the run hands to [setTimeout] is one of 1000, 2000, 4000, 8000, 16000
    ms: the scheduler runs only below the cap of 5 attempts, where the 30000
    ms ceiling of the delay formula is not reached. *)
Theorem scheduled_delays_stay_below_ceiling ins : forall s,
  exists ds,
    scheduled_delays (trace (drive ins s)) = (scheduled_delays (trace s) ++ ds)%list
    /\ Forall (fun d => d ∈ backoff_delays /\ (1000 <= d <= 16000)%Z) ds.
Proof.
  induction ins as [|i ins IH]; intros s; simpl.
  - exists []. split; [by rewrite app_nil_r | by constructor].
  - destruct (IH (react i s)) as (ds2 & Heq2 & Hall2).
    assert (exists ds1,
      scheduled_delays (trace (react i s)) = (scheduled_delays (trace s) ++ ds1)%list
      /\ Forall (fun d => d ∈ backoff_delays) ds1) as (ds1 & Heq1 & Hall1).
    { destruct i as [e|c]; simpl; [apply step_scheduled_delays |].
      exists []. split; [by rewrite app_nil_r, call_scheduled_delays | by constructor]. }
    exists (ds1 ++ ds2)%list. split.
    + by rewrite Heq2, Heq1, app_assoc.
    + apply Forall_app. split; [| exact Hall2].
      eapply Forall_impl; [exact Hall1 |]. intros d Hd. split; [exact Hd |].
      unfold backoff_delays in Hd. set_unfold. lia.
Qed.


(** X3: a successful open of the telemetry socket resets the attempt count
    to 0 whatever it was, so the next close of that socket schedules the
    shortest delay, 1000 ms, and counts as attempt 1. *)
Theorem open_restarts_backoff s ws code reason :
  sockets s !! ws = Some (mkWebSocket Audio CONNECTING) ->
  let s1 := step (ws_open ws) s in
  let s2 := step (ws_close ws code reason) s1 in
  reconnectAttempts s1 = 0%nat
  /\ connectionStatus s1 = "connected"
  /\ reconnectAttempts s2 = 1%nat
  /\ connectionStatus s2 = "disconnected"
  /\ scheduled_delays (trace s2) = (scheduled_delays (trace s) ++ [1000%Z])%list.
Proof.
  intros Hws. cbv zeta.
  assert (Hs1 : step (ws_open ws) s = audio_onopen (set_readyState ws OPEN s)).
  { unfold step. by rewrite Hws. }
  rewrite Hs1. set (s1 := audio_onopen _).
  assert (Hws1 : sockets s1 !! ws = Some (mkWebSocket Audio OPEN)).
  { subst s1. destruct s. simpl in *. by rewrite list_lookup_alter_eq, Hws. }
  assert (Hn1 : reconnectAttempts s1 = 0%nat) by (subst s1; by destruct s).
  assert (Htr1 : scheduled_delays (trace s1) = scheduled_delays (trace s)).
  { subst s1. destruct s. simpl. by rewrite scheduled_delays_snoc, app_nil_r. }
  rewrite (step_close_audio s1 ws OPEN code reason Hws1) by done.
  set (s0 := set_readyState ws CLOSED s1).
  assert (Hlt : (reconnectAttempts s0 < maxReconnectAttempts)%nat).
  { subst s0. destruct s1. simpl in *. subst. unfold maxReconnectAttempts. lia. }
  destruct (audio_onclose_schedules code reason s0 Hlt)
    as (Hn & _ & _ & Htr & _ & _ & Hst).
  assert (Hn0 : reconnectAttempts s0 = 0%nat) by (subst s0; by destruct s1).
  assert (Htr0 : trace s0 = trace s1) by (subst s0; by destruct s1).
  split; [exact Hn1 |]. split; [subst s1; by destruct s |].
  split; [by rewrite Hn, Hn0 |]. split; [exact Hst |].
  by rewrite Htr, Hn0, Htr0, Htr1.
Qed.

Lemma open_restarts_backoff_witness :
  let s := consecutive_closes [(1006%Z, EmptyString); (1006%Z, EmptyString)] mounted in
  reconnectAttempts s = 2%nat
  /\ reconnectAttempts (step (ws_open 3) s) = 0%nat
  /\ scheduled_delays (trace (step (ws_close 3 1006 EmptyString) (step (ws_open 3) s)))
     = [1000; 2000; 1000]%Z.
Proof.
  cbv zeta.
  destruct (open_restarts_backoff
    (consecutive_closes [(1006%Z, EmptyString); (1006%Z, EmptyString)] mounted)
    3%nat 1006%Z EmptyString eq_refl) as (H1 & _ & _ & _ & H5).
  split; [reflexivity | split; [exact H1 | exact H5]].
Defined.

Lemma same_wiring_exhausted s s' : same_wiring s s' -> exhausted s -> exhausted s'.
Proof.
  intros (_ & _ & _ & Hn & Hs & Hm & _) (En & Et & Ec).
  unfold exhausted. by rewrite Hn, Hs, Hm.
Qed.

Lemma set_readyState_control_exhausted ws r r0 s :
  sockets s !! ws = Some (mkWebSocket Control r0) ->
  exhausted s -> exhausted (set_readyState ws r s).
Proof.
  intros Hws (En & Et & Ec).
  destruct s as [ic cs ac lm aref cref tref n socks tm nt tr]. simpl in *.
  split; [done | split; [done |]]. simpl. intros ws' r' Hws'.
  destruct (decide (ws = ws')) as [<-|Hne].
  - rewrite list_lookup_alter_eq, Hws in Hws'. discriminate.
  - rewrite list_lookup_alter_ne in Hws' by done. eauto.
Qed.

Lemma control_onclose_exhausted code reason s :
  exhausted s -> exhausted (control_onclose code reason s).
Proof. intros E. by destruct s. Qed.

Lemma step_exhausted e s :
  exhausted s ->
  exhausted (step e s) /\ length (sockets (step e s)) = length (sockets s).
Proof.
  intros E. pose proof E as (En & Et & Ec).
  destruct e as [ws | ws parsed | ws | ws code reason | id |]; simpl.
  - destruct (sockets s !! ws) as [[ch r]|] eqn:Hws; [| done].
    destruct ch.
    { rewrite (Ec ws r Hws). done. }
    destruct r; try done. split.
    + eapply same_wiring_exhausted; [apply control_onopen_wiring |].
      by eapply set_readyState_control_exhausted.
    + destruct s. simpl. by rewrite length_alter.
  - destruct (sockets s !! ws) as [[ch []]|]; try done; destruct ch.
    + split; [| by destruct (audio_onmessage_wiring parsed s) as (_&_&_&_&->&_)].
      eapply same_wiring_exhausted; [apply audio_onmessage_wiring | done].
    + split; [| by destruct (control_onmessage_wiring parsed s) as (_&_&_&_&->&_)].
      eapply same_wiring_exhausted; [apply control_onmessage_wiring | done].
  - destruct (sockets s !! ws) as [[ch r]|]; try done; destruct ch.
    + split; [| by destruct s].
      eapply same_wiring_exhausted; [apply audio_onerror_wiring | done].
    + split; [| by destruct s].
      eapply same_wiring_exhausted; [apply control_onerror_wiring | done].
  - destruct (sockets s !! ws) as [[ch r]|] eqn:Hws; [| done].
    destruct ch.
    { rewrite (Ec ws r Hws). done. }
    destruct r; try done;
      (split; [by eapply control_onclose_exhausted, set_readyState_control_exhausted
              | destruct s; simpl; by rewrite length_alter]).
  - rewrite Et, lookup_empty. done.
  - split; [| by destruct (ping_interval_wiring s) as (_&_&_&_&->&_)].
    eapply same_wiring_exhausted; [apply ping_interval_wiring | done].
Qed.

Lemma exhausted_not_open s :
  well_formed s -> exhausted s -> open_socket (audioWsRef s) s = None.
Proof.
  intros (Wa & _) (_ & _ & Ec). unfold open_socket.
  destruct (audioWsRef s) as [ws|]; [| done].
  destruct (Wa ws eq_refl) as [r Hr]. rewrite Hr, (Ec ws r Hr). done.
Qed.

(** X4: persistent failure is final. Once the attempt count is at the cap,
    no timeout is pending and every telemetry socket is closed, no sequence
    of events and calls makes a new socket or schedules a timeout; in a
    well-formed provider the telemetry ref then never again holds an open
    socket, so [ping], [getStatus], [toggleAnalysis] and [clearBuffer] stay
    silent no-ops. *)
Theorem persistent_failure_is_final ins : forall s,
  exhausted s ->
  let s' := drive ins s in
  exhausted s'
  /\ length (sockets s') = length (sockets s)
  /\ scheduled_delays (trace s') = scheduled_delays (trace s)
  /\ (well_formed s ->
      open_socket (audioWsRef s') s' = None
      /\ ping s' = s' /\ getStatus s' = s'
      /\ toggleAnalysis s' = s' /\ clearBuffer s' = s').
Proof.
  induction ins as [|i ins IH]; intros s E; simpl.
  - do 3 (split; [done |]). intros W.
    unfold ping, getStatus, toggleAnalysis, clearBuffer.
    by rewrite (exhausted_not_open s W E).
  - assert (exhausted (react i s)
            /\ length (sockets (react i s)) = length (sockets s)
            /\ scheduled_delays (trace (react i s)) = scheduled_delays (trace s)
            /\ (well_formed s -> well_formed (react i s)))
      as (E1 & Hl1 & Hd1 & W1).
    { destruct i as [e|c]; simpl.
      - destruct (step_exhausted e s E) as (E1 & Hl1).
        split; [done | split; [done | split]].
        + destruct (step_schedules_at_most_once e s) as [Heq | (Hlt & _)];
            [done |].
          destruct E as (En & _). rewrite En in Hlt. lia.
        + apply step_well_formed.
      - split; [| split; [| split]].
        + eapply same_wiring_exhausted; [apply call_wiring | done].
        + by destruct (call_wiring c s) as (_&_&_&_&->&_).
        + apply call_scheduled_delays.
        + apply same_wiring_well_formed, call_wiring. }
    destruct (IH (react i s) E1) as (E' & Hl' & Hd' & Hw').
    split; [done |]. split; [by rewrite Hl' |]. split; [by rewrite Hd' |].
    intros W. apply Hw', W1, W.
Qed.

Lemma persistent_failure_is_final_witness :
  let s := step (ws_close 6 1006 EmptyString)
             (consecutive_closes (replicate 5 (1006%Z, EmptyString)) mounted) in
  let s' := drive [Ev (timeout_fired 5); Ev (ws_open 6); Call Ping;
                   Ev (ws_close 6 1000 EmptyString)] s in
  reconnectAttempts s = 5%nat
  /\ length (sockets s') = 7%nat
  /\ scheduled_delays (trace s') = [1000; 2000; 4000; 8000; 16000]%Z
  /\ ping s' = s'.
Proof.
  cbv zeta.
  assert (W : well_formed (step (ws_close 6 1006 EmptyString)
             (consecutive_closes (replicate 5 (1006%Z, EmptyString)) mounted))).
  { split; [| split; [| split]].
    - intros ws Hws. vm_compute in Hws. discriminate Hws.
    - intros ws Hws. vm_compute in Hws. injection Hws as <-. by exists CONNECTING.
    - intros id d Hid. vm_compute in Hid. discriminate Hid.
    - vm_compute. lia. }
  assert (E : exhausted (step (ws_close 6 1006 EmptyString)
             (consecutive_closes (replicate 5 (1006%Z, EmptyString)) mounted))).
  { split; [reflexivity | split; [reflexivity |]].
    intros ws r Hws.
    do 7 (destruct ws as [|ws]; [vm_compute in Hws; congruence |]).
    vm_compute in Hws. discriminate Hws. }
  destruct (persistent_failure_is_final
    [Ev (timeout_fired 5); Ev (ws_open 6); Call Ping;
     Ev (ws_close 6 1000 EmptyString)] _ E) as (_ & Hl & Hd & Hw).
  destruct (Hw W) as (_ & Hp & _).
  split; [reflexivity | split; [exact Hl | split; [exact Hd | exact Hp]]].
Defined.

Lemma step_message_sent ws parsed s :
  sent (trace (step (ws_message ws parsed) s)) = sent (trace s).
Proof.
  destruct s as [ic cs ac lm aref cref tref n socks tm nt tr].
  unfold_handlers; simpl; repeat (case_match; simplify_eq/=);
    rewrite ?sent_snoc; simpl; by rewrite ?app_nil_r.
Qed.

(** X5: an inbound message, whatever its text, parsed or not, on whichever
    socket, changes nothing of the connection machinery: the two socket
    refs, the sockets, the pending timeouts, the timeout ref and the attempt
    count are as before, nothing is written to a socket and no timeout is
    requested. A message can only move [lastMessage], [activeConnections]
    and the log. *)
Theorem messages_leave_connections_alone ws parsed s :
  let s' := step (ws_message ws parsed) s in
  same_wiring s s'
  /\ isConnected s' = isConnected s
  /\ connectionStatus s' = connectionStatus s
  /\ sent (trace s') = sent (trace s)
  /\ scheduled_delays (trace s') = scheduled_delays (trace s).
Proof.
  cbv zeta. split; [| split; [| split; [| split]]].
  - simpl. destruct (sockets s !! ws) as [[[] []]|];
      try (by destruct s);
      [apply audio_onmessage_wiring | apply control_onmessage_wiring].
  - destruct s. unfold_handlers; simpl; by repeat (case_match; simplify_eq/=).
  - destruct s. unfold_handlers; simpl; by repeat (case_match; simplify_eq/=).
  - apply step_message_sent.
  - destruct (step_schedules_at_most_once (ws_message ws parsed) s)
      as [Heq | (_ & Heq)]; [done |].
    exfalso. revert Heq.
    destruct s as [ic cs ac lm aref cref tref n socks tm nt tr].
    unfold_handlers; simpl; repeat (case_match; simplify_eq/=);
      rewrite ?scheduled_delays_snoc; simpl; rewrite ?app_nil_r;
      intros Heq; apply (f_equal length) in Heq;
      rewrite length_app in Heq; simpl in Heq; lia.
Qed.

(** X6: a [connection_info] message on the open control socket stores
    [data.data.active_connections], whatever value that is, and changes
    nothing else; when the message has no [data] to read from, the failure
    is caught: one console error, the count as before. *)
Theorem connection_info_updates_count ws data s :
  sockets s !! ws = Some (mkWebSocket Control OPEN) ->
  get_field data "type" = Some (JStr "connection_info") ->
  step (ws_message ws (Some data)) s =
    match get_field (default JUndefined (get_field data "data")) "active_connections" with
    | Some n => setActiveConnections n s
    | None => emit (console_error "Error parsing control WebSocket message:") s
    end.
Proof.
  intros Hws Ht. unfold step. rewrite Hws.
  unfold control_onmessage, try_catch, handleControlMessage. rewrite Ht. simpl.
  by destruct (get_field _ "active_connections").
Qed.

Lemma connection_info_updates_count_witness :
  let s := run [ws_open 1] mounted in
  activeConnections
    (step (ws_message 1 (Some (JObj (obj [("type", JStr "connection_info");
        ("data", JObj (obj [("active_connections", JNum (inject_Z 3))]))])))) s)
  = JNum (inject_Z 3)
  /\ step (ws_message 1 (Some (JObj (obj [("type", JStr "connection_info")])))) s
     = emit (console_error "Error parsing control WebSocket message:") s.
Proof.
  cbv zeta. split.
  - rewrite (connection_info_updates_count 1%nat
      (JObj (obj [("type", JStr "connection_info");
        ("data", JObj (obj [("active_connections", JNum (inject_Z 3))]))]))
      (run [ws_open 1] mounted) eq_refl eq_refl). reflexivity.
  - rewrite (connection_info_updates_count 1%nat
      (JObj (obj [("type", JStr "connection_info")]))
      (run [ws_open 1] mounted) eq_refl eq_refl). reflexivity.
Defined.

Lemma open_socket_channel ref s ws (ch : channel) :
  (forall h, ref = Some h -> exists r, sockets s !! h = Some (mkWebSocket ch r)) ->
  open_socket ref s = Some ws ->
  sockets s !! ws = Some (mkWebSocket ch OPEN).
Proof.
  intros Href Hopen.
  destruct (open_socket_is_open ref s ws Hopen) as (-> & c & Hc).
  destruct (Href ws eq_refl) as [r Hr]. congruence.
Qed.

Lemma step_sends_at_most_ping e s :
  sent (trace (step e s)) = sent (trace s)
  \/ exists ws, open_socket (audioWsRef s) s = Some ws
       /\ sent (trace (step e s)) = (sent (trace s) ++ [(ws, Text "ping")])%list.
Proof.
  destruct e; try (left;
    destruct s as [ic cs ac lm aref cref tref n socks tm nt tr];
    unfold_handlers; simpl; repeat (case_match; simplify_eq/=);
    rewrite ?sent_snoc; simpl; by rewrite ?app_nil_r).
  simpl. unfold ping_interval_callback, ping, send.
  destruct (isConnected s); [| by left].
  destruct (open_socket (audioWsRef s) s) as [ws|] eqn:Hopen; [| by left].
  right. exists ws. split; [done |]. destruct s. simpl. by rewrite sent_snoc.
Qed.

Lemma call_sends_at_most_once c s :
  sent (trace (call c s)) = sent (trace s)
  \/ exists ws f,
       open_socket (match channel_of c with
                    | Audio => audioWsRef s
                    | Control => controlWsRef s
                    end) s = Some ws
       /\ sent (trace (call c s)) = (sent (trace s) ++ [(ws, f)])%list.
Proof.
  destruct c; unfold_handlers; simpl;
    match goal with
    | |- context [open_socket ?r s] =>
      destruct (open_socket r s) as [ws|] eqn:Hopen
    end;
    try (left; destruct s; simpl; rewrite ?sent_snoc; simpl; by rewrite ?app_nil_r);
    right; exists ws; eexists; (split; [done |]);
    destruct s; simpl; by rewrite sent_snoc.
Qed.

(** X7: in every state reached from the mounted provider, an event or a
    call writes at most one frame, and only to a socket that is OPEN and
    belongs to the right channel: the telemetry socket for [ping],
    [getStatus], [toggleAnalysis], [clearBuffer], [sendAudioData] and the
    periodic ping, the control socket for every command envelope. *)
Theorem writes_go_to_the_open_socket_of_their_channel ins i :
  let s := drive ins mounted in
  sent (trace (react i s)) = sent (trace s)
  \/ exists ws f,
       sent (trace (react i s)) = (sent (trace s) ++ [(ws, f)])%list
       /\ sockets s !! ws = Some (mkWebSocket (target i) OPEN).
Proof.
  cbv zeta. set (s := drive ins mounted).
  destruct (drive_well_formed ins mounted mounted_well_formed) as (Wa & Wc & _).
  fold s in Wa, Wc.
  destruct i as [e|c]; simpl.
  - destruct (step_sends_at_most_ping e s) as [Heq | (ws & Hopen & Heq)];
      [by left |].
    right. exists ws, (Text "ping"). split; [done |].
    by apply (open_socket_channel (audioWsRef s)).
  - destruct (call_sends_at_most_once c s) as [Heq | (ws & f & Hopen & Heq)];
      [by left |].
    right. exists ws, f. split; [done |].
    destruct (channel_of c).
    + by apply (open_socket_channel (audioWsRef s)).
    + by apply (open_socket_channel (controlWsRef s)).
Qed.

Lemma close_method_lookup h s ws :
  sockets (close_method h s) !! ws =
  (fun w => mkWebSocket (handlers w)
              (if decide (h = ws) then closing (readyState w) else readyState w))
    <$> sockets s !! ws.
Proof.
  unfold close_method.
  destruct (sockets s !! h) as [[ch r]|] eqn:Hh.
  - destruct (decide (h = ws)) as [<-|Hne].
    + rewrite Hh. destruct r; simpl; try (by rewrite Hh);
        destruct s; simpl in *; by rewrite list_lookup_alter_eq, Hh.
    + destruct r; simpl;
        try (destruct (sockets s !! ws) as [[]|]; done);
        destruct s; simpl in *; rewrite list_lookup_alter_ne by done;
        by destruct (_ !! ws) as [[]|].
  - destruct (decide (h = ws)) as [<-|Hne].
    + by rewrite Hh.
    + by destruct (sockets s !! ws) as [[]|].
Qed.

Lemma close_method_wiring h s :
  audioWsRef (close_method h s) = audioWsRef s
  /\ controlWsRef (close_method h s) = controlWsRef s
  /\ reconnectTimeoutRef (close_method h s) = reconnectTimeoutRef s
  /\ reconnectAttempts (close_method h s) = reconnectAttempts s
  /\ timers (close_method h s) = timers s
  /\ nextTimer (close_method h s) = nextTimer s
  /\ trace (close_method h s) = trace s.
Proof.
  unfold close_method. destruct (sockets s !! h) as [[ch []]|]; by destruct s.
Qed.

Lemma close_method_not_open h s ref :
  open_socket ref s = None \/ ref = Some h ->
  open_socket ref (close_method h s) = None.
Proof.
  unfold open_socket. destruct ref as [ws|]; [| done].
  rewrite close_method_lookup.
  destruct (sockets s !! ws) as [[ch r]|]; [| done]. simpl.
  intros [Hno | [= ->]].
  - destruct (decide (h = ws)); destruct r; done.
  - rewrite decide_True by done. by destruct r.
Qed.

Lemma maybe_close_wiring (ref : option nat) s :
  let s' := match ref with Some h => close_method h s | None => s end in
  audioWsRef s' = audioWsRef s
  /\ controlWsRef s' = controlWsRef s
  /\ reconnectTimeoutRef s' = reconnectTimeoutRef s
  /\ reconnectAttempts s' = reconnectAttempts s
  /\ timers s' = timers s
  /\ nextTimer s' = nextTimer s
  /\ trace s' = trace s.
Proof. destruct ref; [apply close_method_wiring | done]. Qed.

Lemma cleanup_wiring s :
  audioWsRef (cleanup s) = audioWsRef s
  /\ controlWsRef (cleanup s) = controlWsRef s
  /\ reconnectTimeoutRef (cleanup s) = reconnectTimeoutRef s
  /\ reconnectAttempts (cleanup s) = reconnectAttempts s
  /\ nextTimer (cleanup s) = nextTimer s
  /\ timers (cleanup s) =
     match reconnectTimeoutRef s with
     | Some id => delete id (timers s)
     | None => timers s
     end
  /\ scheduled_delays (trace (cleanup s)) = scheduled_delays (trace s)
  /\ sent (trace (cleanup s)) = sent (trace s).
Proof.
  unfold cleanup.
  set (s1 := match reconnectTimeoutRef s with Some id => clearTimeout id s | None => s end).
  assert (H1 : audioWsRef s1 = audioWsRef s /\ controlWsRef s1 = controlWsRef s
    /\ reconnectTimeoutRef s1 = reconnectTimeoutRef s
    /\ reconnectAttempts s1 = reconnectAttempts s /\ nextTimer s1 = nextTimer s
    /\ timers s1 = match reconnectTimeoutRef s with
                   | Some id => delete id (timers s)
                   | None => timers s
                   end
    /\ scheduled_delays (trace s1) = scheduled_delays (trace s)
    /\ sent (trace s1) = sent (trace s)).
  { subst s1. destruct s as [ic cs ac lm aref cref [id|] n socks tm nt tr];
      simpl; rewrite ?scheduled_delays_snoc, ?sent_snoc, ?app_nil_r; done. }
  destruct H1 as (Ha & Hc & Ht & Hn & Hnt & Htm & Hd & Hs).
  set (s2 := match audioWsRef s1 with Some ws => close_method ws s1 | None => s1 end).
  assert (H2 : audioWsRef s2 = audioWsRef s1 /\ controlWsRef s2 = controlWsRef s1
    /\ reconnectTimeoutRef s2 = reconnectTimeoutRef s1
    /\ reconnectAttempts s2 = reconnectAttempts s1 /\ timers s2 = timers s1
    /\ nextTimer s2 = nextTimer s1 /\ trace s2 = trace s1).
  { subst s2. apply maybe_close_wiring. }
  destruct H2 as (Ha2 & Hc2 & Ht2 & Hn2 & Htm2 & Hnt2 & Htr2).
  assert (H3 : forall s3,
    s3 = match controlWsRef s2 with Some ws => close_method ws s2 | None => s2 end ->
    audioWsRef s3 = audioWsRef s2 /\ controlWsRef s3 = controlWsRef s2
    /\ reconnectTimeoutRef s3 = reconnectTimeoutRef s2
    /\ reconnectAttempts s3 = reconnectAttempts s2 /\ timers s3 = timers s2
    /\ nextTimer s3 = nextTimer s2 /\ trace s3 = trace s2).
  { intros s3 ->. apply maybe_close_wiring. }
  destruct (H3 _ eq_refl) as (Ha3 & Hc3 & Ht3 & Hn3 & Htm3 & Hnt3 & Htr3).
  rewrite Ha3, Hc3, Ht3, Hn3, Htm3, Hnt3, Htr3.
  rewrite Ha2, Hc2, Ht2, Hn2, Htm2, Hnt2, Htr2. done.
Qed.

Lemma cleanup_lookup s ws ch r :
  sockets s !! ws = Some (mkWebSocket ch r) ->
  exists r', sockets (cleanup s) !! ws = Some (mkWebSocket ch r')
    /\ (r' = r \/ r' = closing r)
    /\ (audioWsRef s = Some ws \/ controlWsRef s = Some ws -> r' = closing r).
Proof.
  intros Hws. unfold cleanup.
  set (s1 := match reconnectTimeoutRef s with Some id => clearTimeout id s | None => s end).
  assert (Hs1 : sockets s1 = sockets s /\ audioWsRef s1 = audioWsRef s
                /\ controlWsRef s1 = controlWsRef s).
  { subst s1. by destruct s as [ic cs ac lm aref cref [id|] n socks tm nt tr]. }
  destruct Hs1 as (Hs1 & Ha1 & Hc1). rewrite Ha1.
  set (s2 := match audioWsRef s with Some h => close_method h s1 | None => s1 end).
  assert (Hc2 : controlWsRef s2 = controlWsRef s).
  { subst s2. destruct (audioWsRef s) as [h|]; [| done].
    by destruct (close_method_wiring h s1) as (_ & -> & _). }
  rewrite Hc2.
  assert (Hs2 : sockets s2 !! ws = Some (mkWebSocket ch
            (if decide (audioWsRef s = Some ws) then closing r else r))).
  { subst s2. destruct (audioWsRef s) as [h|].
    - rewrite close_method_lookup, Hs1, Hws. simpl.
      destruct (decide (h = ws)) as [->|Hne].
      + by rewrite decide_True.
      + rewrite decide_False; [done | congruence].
    - by rewrite Hs1, Hws. }
  destruct (controlWsRef s) as [h|].
  - rewrite close_method_lookup, Hs2. simpl. eexists. split; [reflexivity |].
    destruct (decide (h = ws)) as [->|Hne];
      destruct (decide (audioWsRef s = Some ws)) as [Ha|Ha];
      (split; [destruct r; auto | intros [?|?]; destruct r; simpl; congruence]).
  - rewrite Hs2. eexists. split; [reflexivity |].
    destruct (decide (audioWsRef s = Some ws)) as [Ha|Ha];
      (split; [auto | intros [?|?]; congruence]).
Qed.

Lemma cleanup_length s : length (sockets (cleanup s)) = length (sockets s).
Proof.
  unfold cleanup.
  assert (Hcm : forall h s0, length (sockets (close_method h s0)) = length (sockets s0)).
  { intros h s0. unfold close_method.
    destruct (sockets s0 !! h) as [[? []]|]; try done;
      destruct s0; simpl; by rewrite length_alter. }
  repeat (case_match; rewrite ?Hcm); by destruct s.
Qed.

Lemma cleanup_not_open s :
  open_socket (audioWsRef (cleanup s)) (cleanup s) = None
  /\ open_socket (controlWsRef (cleanup s)) (cleanup s) = None.
Proof.
  destruct (cleanup_wiring s) as (Ha & Hc & _). rewrite Ha, Hc.
  unfold open_socket. split.
  - destruct (audioWsRef s) as [ws|] eqn:Href; [| done].
    destruct (sockets (cleanup s) !! ws) as [[ch r']|] eqn:Hws'; [| done].
    destruct (sockets s !! ws) as [[ch0 r]|] eqn:Hws.
    + destruct (cleanup_lookup s ws ch0 r Hws) as (r1 & Hr1 & _ & Hcl).
      rewrite Hr1 in Hws'. injection Hws' as <- <-.
      rewrite Hcl by auto. by destruct r.
    + exfalso. apply lookup_ge_None in Hws. apply lookup_lt_Some in Hws'.
      pose proof (cleanup_length s). lia.
  - destruct (controlWsRef s) as [ws|] eqn:Href; [| done].
    destruct (sockets (cleanup s) !! ws) as [[ch r']|] eqn:Hws'; [| done].
    destruct (sockets s !! ws) as [[ch0 r]|] eqn:Hws.
    + destruct (cleanup_lookup s ws ch0 r Hws) as (r1 & Hr1 & _ & Hcl).
      rewrite Hr1 in Hws'. injection Hws' as <- <-.
      rewrite Hcl by auto. by destruct r.
    + exfalso. apply lookup_ge_None in Hws. apply lookup_lt_Some in Hws'.
      pose proof (cleanup_length s). lia.
Qed.

(** X8: unmounting a well-formed provider leaves no timeout pending and no
    ref holding an open socket (a socket that was connecting or open is now
    closing); in the state it leaves, every command and the periodic ping
    write nothing. The refs and the attempt count stay as they were. *)
Theorem cleanup_cancels_and_silences s :
  well_formed s ->
  let s' := cleanup s in
  timers s' = ∅
  /\ open_socket (audioWsRef s') s' = None
  /\ open_socket (controlWsRef s') s' = None
  /\ (forall c, sent (trace (call c s')) = sent (trace s'))
  /\ sent (trace (step ping_interval_tick s')) = sent (trace s')
  /\ audioWsRef s' = audioWsRef s
  /\ controlWsRef s' = controlWsRef s
  /\ reconnectAttempts s' = reconnectAttempts s.
Proof.
  intros (_ & _ & Wt & _). cbv zeta.
  destruct (cleanup_wiring s) as (Ha & Hc & _ & Hn & _ & Htm & _).
  destruct (cleanup_not_open s) as (Hoa & Hoc).
  split.
  { rewrite Htm. apply map_eq. intros id. rewrite lookup_empty.
    destruct (reconnectTimeoutRef s) as [old|] eqn:Href.
    - destruct (decide (old = id)) as [->|Hne].
      + apply lookup_delete_eq.
      + rewrite lookup_delete_ne by done.
        destruct (timers s !! id) as [d|] eqn:Hid; [| done].
        apply Wt in Hid. congruence.
    - destruct (timers s !! id) as [d|] eqn:Hid; [| done].
      apply Wt in Hid. congruence. }
  split; [done |]. split; [done |]. split.
  { intros c.
    destruct (call_sends_at_most_once c (cleanup s)) as [Heq | (ws & f & Hopen & _)];
      [done |].
    destruct (channel_of c); congruence. }
  split.
  { destruct (step_sends_at_most_ping ping_interval_tick (cleanup s))
      as [Heq | (ws & Hopen & _)]; [done | congruence]. }
  done.
Qed.

Lemma cleanup_cancels_and_silences_witness :
  let s := drive [Ev (ws_open 1); Ev (ws_close 0 1006 EmptyString)] mounted in
  timers s = {[1%nat := 1000%Z]}
  /\ timers (cleanup s) = ∅
  /\ sent (trace (call DisableEQ (cleanup s))) = [].
Proof.
  cbv zeta.
  destruct (cleanup_cancels_and_silences
    (drive [Ev (ws_open 1); Ev (ws_close 0 1006 EmptyString)] mounted)
    (drive_well_formed _ mounted mounted_well_formed)) as (Ht & _ & _ & Hc & _).
  split; [reflexivity | split; [exact Ht |]].
  rewrite (Hc DisableEQ). reflexivity.
Defined.

(** X9: the close handler does not tell a planned close from an unplanned
    one. When the provider is unmounted while its telemetry socket is
    connecting or open and the attempt count is below the cap, the close
    event that follows schedules a reconnect as usual, and when that timeout
    fires a new telemetry socket is made and stored in the ref. *)
Theorem close_after_unmount_reconnects s ws r code reason :
  audioWsRef s = Some ws ->
  sockets s !! ws = Some (mkWebSocket Audio r) ->
  r <> CLOSED ->
  (reconnectAttempts s < maxReconnectAttempts)%nat ->
  let s1 := cleanup s in
  let s2 := step (ws_close ws code reason) s1 in
  let s3 := step (timeout_fired (nextTimer s)) s2 in
  timers s2 !! nextTimer s = Some (reconnect_delay (reconnectAttempts s))
  /\ reconnectAttempts s2 = S (reconnectAttempts s)
  /\ sockets s3 = (sockets s2 ++ [mkWebSocket Audio CONNECTING])%list
  /\ audioWsRef s3 = Some (length (sockets s)).
Proof.
  intros Href Hws Hr Hlt. cbv zeta.
  destruct (cleanup_wiring s) as (_ & _ & _ & Hn & Hnt & _).
  destruct (cleanup_lookup s ws Audio r Hws) as (r' & Hws' & Hr' & _).
  assert (Hr'' : r' <> CLOSED) by (destruct Hr' as [->| ->]; by destruct r).
  rewrite (step_close_audio (cleanup s) ws r' code reason Hws' Hr'').
  set (s0 := set_readyState ws CLOSED (cleanup s)).
  assert (Hn0 : reconnectAttempts s0 = reconnectAttempts s).
  { subst s0. rewrite <- Hn. by destruct (cleanup s). }
  assert (Hnt0 : nextTimer s0 = nextTimer s).
  { subst s0. rewrite <- Hnt. by destruct (cleanup s). }
  assert (Hlen : length (sockets s0) = length (sockets s)).
  { subst s0. rewrite <- (cleanup_length s).
    destruct (cleanup s). simpl. by rewrite length_alter. }
  assert (Hlt0 : (reconnectAttempts s0 < maxReconnectAttempts)%nat) by lia.
  destruct (audio_onclose_schedules code reason s0 Hlt0)
    as (Hn2 & _ & Htm2 & _ & Hs2 & _).
  rewrite Hn0, Hnt0 in *.
  rewrite (step_timeout_fired _ _ _ Htm2).
  set (s2' := set_timers _ _ _).
  destruct (reconnect_callback_spec s2') as (Hs3 & Ha3 & _).
  assert (Hs2' : sockets s2' = sockets (audio_onclose code reason s0)).
  { subst s2'. by destruct (audio_onclose code reason s0). }
  split; [done |]. split; [done |]. split.
  - by rewrite Hs3, Hs2'.
  - by rewrite Ha3, Hs2', Hs2, Hlen.
Qed.

Lemma close_after_unmount_reconnects_witness :
  let s := run [ws_open 0] mounted in
  let s2 := step (ws_close 0 1000 EmptyString) (cleanup s) in
  timers s2 !! 1%nat = Some 1000%Z
  /\ audioWsRef (step (timeout_fired 1) s2) = Some 2%nat.
Proof.
  cbv zeta.
  assert (Hr : OPEN <> CLOSED) by discriminate.
  assert (Hlt : (reconnectAttempts (run [ws_open 0] mounted)
                 < maxReconnectAttempts)%nat).
  { unfold maxReconnectAttempts. simpl. lia. }
  destruct (close_after_unmount_reconnects (run [ws_open 0] mounted) 0%nat OPEN
              1000%Z EmptyString eq_refl eq_refl Hr Hlt) as (Ht & _ & _ & Ha).
  split; [exact Ht | exact Ha].
Defined.

End SocketRuns.

(** ** The store over sequences of actions *)

Section StoreRuns.
Import AudioContext.

Implicit Types (s : AudioContext.State) (a : Action) (p : value).

Ltac reducer_cases a :=
  unfold audioReducer;
  repeat match goal with
         | |- context [String.eqb (type a) ?lit] =>
           destruct (String.eqb (type a) lit)
         end.

Lemma reducer_keeps_shape s a :
  frequencyBands (audioReducer s a) = frequencyBands s
  /\ dom (userPreferences s) ⊆ dom (userPreferences (audioReducer s a))
  /\ dom (realTimeData s) ⊆ dom (realTimeData (audioReducer s a)).
Proof.
  reducer_cases a; simpl; repeat split; try done;
    unfold spread; rewrite dom_union; set_solver.
Qed.

(** X10: no sequence of actions, whatever their types and payloads, changes
    the frequency table or removes a key from [userPreferences] or from
    [realTimeData]: keys can only be added or overwritten. *)
Theorem actions_keep_bands_and_keys (actions : list Action) : forall s,
  let s' := foldl audioReducer s actions in
  frequencyBands s' = frequencyBands s
  /\ dom (userPreferences s) ⊆ dom (userPreferences s')
  /\ dom (realTimeData s) ⊆ dom (realTimeData s').
Proof.
  induction actions as [|a actions IH]; intros s; simpl; [done |].
  destruct (IH (audioReducer s a)) as (Hf & Hu & Hr).
  destruct (reducer_keeps_shape s a) as (Hf1 & Hu1 & Hr1).
  split; [congruence |].
  split; (etrans; [eassumption | eassumption]).
Qed.

(** X11: an update with a one-key object changes that key of
    [userPreferences] and no other; an update whose payload is [undefined],
    [null], a boolean or a number changes nothing at all. *)
Theorem update_preferences_single_key s (k : string) (v : value) :
  let s' := audioReducer s (mkAction "UPDATE_USER_PREFERENCES" (JObj {[k := v]})) in
  userPreferences s' !! k = Some v
  /\ (forall k', k' <> k -> userPreferences s' !! k' = userPreferences s !! k')
  /\ (forall p, own_props p = ∅ ->
        audioReducer s (mkAction "UPDATE_USER_PREFERENCES" p) = s)
  /\ own_props JUndefined = ∅ /\ own_props JNull = ∅
  /\ (forall b, own_props (JBool b) = ∅) /\ (forall q, own_props (JNum q) = ∅).
Proof.
  cbv zeta. simpl.
  split; [by rewrite spread_lookup; simpl; rewrite lookup_singleton_eq |].
  split.
  { intros k' Hne. rewrite spread_lookup. simpl.
    by rewrite lookup_singleton_ne. }
  split; [| done].
  intros p Hp. destruct s. unfold audioReducer, spread. simpl.
  by rewrite Hp, (left_id_L ∅ (∪)).
Qed.

(** X12: preference updates compose as one merge in which the later payload
    wins, and repeating an update changes nothing more. *)
Theorem update_preferences_compose s p1 p2 :
  let upd p s := audioReducer s (mkAction "UPDATE_USER_PREFERENCES" p) in
  userPreferences (upd p2 (upd p1 s))
    = own_props p2 ∪ (own_props p1 ∪ userPreferences s)
  /\ (forall k, userPreferences (upd p2 (upd p1 s)) !! k =
        match own_props p2 !! k with
        | Some v => Some v
        | None => match own_props p1 !! k with
                  | Some v => Some v
                  | None => userPreferences s !! k
                  end
        end)
  /\ upd p1 (upd p1 s) = upd p1 s.
Proof.
  cbv zeta. simpl. unfold spread. split; [done |]. split.
  - intros k. rewrite !lookup_union.
    by destruct (own_props p2 !! k), (own_props p1 !! k), (userPreferences s !! k).
  - destruct s. unfold audioReducer, spread. simpl. f_equal.
    by rewrite (assoc_L (∪)), (idemp_L (∪)).
Qed.

(** X13: a reset commutes with every action except the four that write
    what it clears (SET_ANALYZING, SET_PROCESSING, SET_AUDIO_DATA,
    SET_ANALYSIS_RESULTS), so gains, profiles, preferences and real-time
    data can be updated before or after a reset with the same result; a
    second reset changes nothing. *)
Theorem reset_commutes_with_kept_updates s a :
  type a ∉ ["SET_ANALYZING"; "SET_PROCESSING"; "SET_AUDIO_DATA";
            "SET_ANALYSIS_RESULTS"] ->
  let reset := mkAction "RESET_AUDIO_STATE" JUndefined in
  audioReducer (audioReducer s a) reset = audioReducer (audioReducer s reset) a
  /\ audioReducer (audioReducer s reset) reset = audioReducer s reset.
Proof.
  intros Ha. cbv zeta. split; [| done].
  destruct a as [t p]. simpl in Ha. unfold audioReducer. simpl.
  repeat match goal with
         | |- context [String.eqb t ?lit] =>
           destruct (String.eqb_spec t lit) as [->|?]; simpl
         end; try done; exfalso; apply Ha; repeat constructor.
Qed.

Lemma reset_commutes_with_kept_updates_witness :
  let reset := mkAction "RESET_AUDIO_STATE" JUndefined in
  let a := mkAction "UPDATE_EQ_GAINS" (JArr (replicate 31 (int 3))) in
  audioReducer (audioReducer initialState a) reset
  = audioReducer (audioReducer initialState reset) a.
Proof.
  cbv zeta.
  assert (Ha : type (mkAction "UPDATE_EQ_GAINS" (JArr (replicate 31 (int 3))))
     ∉ ["SET_ANALYZING"; "SET_PROCESSING"; "SET_AUDIO_DATA";
        "SET_ANALYSIS_RESULTS"]).
  { simpl. rewrite !not_elem_of_cons.
    repeat split; try discriminate. apply not_elem_of_nil. }
  destruct (reset_commutes_with_kept_updates initialState _ Ha) as (Hc & _).
  exact Hc.
Defined.

(** X14: whatever arrives on the store's socket, only [analysisResults] and
    [realTimeData] can change; the other nine fields of the store are as
    before. Text that is not JSON, and JSON [null], change nothing and leave
    one console error. *)
Theorem store_message_frame (parsed : option value) (c : Ctx) :
  let s := store c in
  let c' := ws_onmessage parsed c in
  let s' := store c' in
  isConnected s' = isConnected s /\ isAnalyzing s' = isAnalyzing s
  /\ isProcessing s' = isProcessing s /\ audioData s' = audioData s
  /\ eqProfile s' = eqProfile s /\ soundstageProfile s' = soundstageProfile s
  /\ userPreferences s' = userPreferences s
  /\ frequencyBands s' = frequencyBands s /\ eqGains s' = eqGains s
  /\ (parsed = None \/ parsed = Some JNull ->
      c' = emit (console_error "Error parsing WebSocket message:") c).
Proof.
  cbv zeta.
  assert (Hfail : parsed = None \/ parsed = Some JNull ->
    ws_onmessage parsed c = emit (console_error "Error parsing WebSocket message:") c).
  { by intros [-> | ->]. }
  unfold ws_onmessage, try_catch, handleWebSocketMessage in *.
  destruct parsed as [data|]; simpl in *; [| done].
  destruct (get_field data "type") as [t|] eqn:Ht; simpl in *; [| done].
  repeat case_match; simplify_eq/=; done.
Qed.

End StoreRuns.

(** ** The store provider's socket *)

Section StoreSocket.
Import AudioSocket.

Implicit Types (p : Provider).

Lemma store_step_close p ws r :
  sockets p !! ws = Some r -> r <> WebSocketContext.CLOSED ->
  step (ws_close ws) p = ws_onclose (set_readyState ws WebSocketContext.CLOSED p).
Proof. intros Hws Hr. unfold step. rewrite Hws. by destruct r. Qed.

Lemma store_onclose_spec p :
  let p' := ws_onclose p in
  sockets p' = sockets p
  /\ effect_ws p' = effect_ws p
  /\ nextTimer p' = S (nextTimer p)
  /\ timers p' = <[nextTimer p := 3000%Z]> (timers p)
  /\ WebSocketContext.scheduled_delays (AudioContext.trace (ctx p')) =
     (WebSocketContext.scheduled_delays (AudioContext.trace (ctx p)) ++ [3000%Z])%list
  /\ AudioContext.isConnected (AudioContext.store (ctx p')) = JBool false.
Proof.
  destruct p as [[st tr] socks ew tm nt]. simpl.
  by rewrite !scheduled_delays_snoc, !app_nil_r.
Qed.

Lemma store_close_then_retry p :
  live p ->
  let p' := close_then_retry p in
  live p'
  /\ length (sockets p') = S (length (sockets p))
  /\ WebSocketContext.scheduled_delays (AudioContext.trace (ctx p')) =
     (WebSocketContext.scheduled_delays (AudioContext.trace (ctx p)) ++ [3000%Z])%list
  /\ AudioContext.isConnected (AudioContext.store (ctx p')) = JBool false.
Proof.
  intros (r & Hr & Hne). unfold close_then_retry. cbv zeta.
  rewrite (store_step_close p _ r Hr Hne).
  set (p0 := set_readyState _ _ p).
  destruct (store_onclose_spec p0) as (Hs & _ & Hnt & Htm & Hd & Hc).
  set (p1 := ws_onclose p0) in *.
  assert (Hfire : step (timeout_fired (nextTimer p1 - 1)) p1 =
    (connectWebSocket (mkProvider (ctx p1) (sockets p1) (effect_ws p1)
       (delete (nextTimer p1 - 1)%nat (timers p1)) (nextTimer p1))).2).
  { unfold step. rewrite Hnt, Htm. simpl. rewrite Nat.sub_0_r.
    by rewrite lookup_insert_eq. }
  rewrite Hfire. clear Hfire.
  set (p2 := (connectWebSocket _).2).
  assert (Hs2 : sockets p2 = (sockets p1 ++ [WebSocketContext.CONNECTING])%list)
    by done.
  assert (Hc2 : ctx p2 = ctx p1) by done.
  assert (Hlen : length (sockets p1) = length (sockets p)).
  { rewrite Hs. subst p0. destruct p. simpl. by rewrite length_insert. }
  split; [| split; [| split]].
  - exists WebSocketContext.CONNECTING. split; [| done].
    rewrite Hs2, length_app. simpl. rewrite Nat.add_sub.
    by apply list_lookup_middle.
  - rewrite Hs2, length_app, Hlen. simpl. lia.
  - rewrite Hc2, Hd. subst p0. by destruct p.
  - by rewrite Hc2.
Qed.

(** X15: the store provider retries on a fixed schedule without a cap:
    however many times in a row its socket closes, each close marks the
    store disconnected and schedules one reconnect exactly 3000 ms later,
    and each firing makes one new socket. *)
Theorem store_socket_retries_every_3000 (n : nat) p :
  live p ->
  let p' := Nat.iter n close_then_retry p in
  WebSocketContext.scheduled_delays (AudioContext.trace (ctx p')) =
    (WebSocketContext.scheduled_delays (AudioContext.trace (ctx p))
       ++ replicate n 3000%Z)%list
  /\ length (sockets p') = (length (sockets p) + n)%nat
  /\ live p'
  /\ ((0 < n)%nat ->
      AudioContext.isConnected (AudioContext.store (ctx p')) = JBool false).
Proof.
  intros Hlive. cbv zeta. induction n as [|n IH]; simpl.
  - rewrite app_nil_r, Nat.add_0_r.
    split; [done | split; [done | split; [done |]]].
    by intros ?%Nat.lt_irrefl.
  - destruct IH as (Hd & Hl & Hlive' & _).
    destruct (store_close_then_retry _ Hlive') as (Hlive2 & Hl2 & Hd2 & Hc2).
    split; [| split; [| split]].
    + rewrite Hd2, Hd, <- app_assoc. f_equal.
      symmetry. apply replicate_cons_app.
    + rewrite Hl2, Hl. lia.
    + exact Hlive2.
    + intros _. exact Hc2.
Qed.

Lemma store_socket_retries_every_3000_witness :
  let p := Nat.iter 8 close_then_retry (mount (AudioContext.mkCtx AudioContext.initialState [])) in
  WebSocketContext.scheduled_delays (AudioContext.trace (ctx p)) = replicate 8 3000%Z
  /\ length (sockets p) = 9%nat.
Proof.
  cbv zeta.
  assert (Hlive : live (mount (AudioContext.mkCtx AudioContext.initialState []))).
  { exists WebSocketContext.CONNECTING. split; [reflexivity | discriminate]. }
  destruct (store_socket_retries_every_3000 8
    (mount (AudioContext.mkCtx AudioContext.initialState [])) Hlive)
    as (Hd & Hl & _).
  split; [exact Hd | exact Hl].
Defined.

Lemma store_step_effect_ws e p : effect_ws (step e p) = effect_ws p.
Proof.
  destruct e; simpl; repeat case_match; by destruct p.
Qed.

Lemma store_run_effect_ws es : forall p, effect_ws (run es p) = effect_ws p.
Proof.
  induction es as [|e es IH]; intros p; simpl; [done |].
  by rewrite IH, store_step_effect_ws.
Qed.

(** X16: the cleanup closes only the socket of the first connect call and
    cancels no timeout. Once that first socket has closed, unmounting
    changes nothing at all: a replacement socket stays as it is and a
    pending reconnect stays scheduled. *)
Theorem store_cleanup_reaches_only_first_socket es c :
  let p := run es (mount c) in
  timers (cleanup p) = timers p
  /\ ctx (cleanup p) = ctx p
  /\ (forall ws, ws <> 0%nat -> sockets (cleanup p) !! ws = sockets p !! ws)
  /\ (sockets p !! 0%nat = Some WebSocketContext.CLOSED -> cleanup p = p).
Proof.
  cbv zeta. set (p := run es (mount c)).
  assert (He : effect_ws p = Some 0%nat).
  { subst p. by rewrite store_run_effect_ws. }
  unfold cleanup. rewrite He.
  destruct (sockets p !! 0%nat) as [[]|] eqn:H0; try done; destruct p; simpl;
    (repeat split; try done);
    intros ws Hne; by rewrite list_lookup_insert_ne.
Qed.

Lemma store_cleanup_reaches_only_first_socket_witness :
  let p := run [ws_close 0; timeout_fired 1; ws_open 1; ws_close 1]
             (mount (AudioContext.mkCtx AudioContext.initialState [])) in
  cleanup p = p /\ timers p = {[2%nat := 3000%Z]}.
Proof.
  cbv zeta.
  destruct (store_cleanup_reaches_only_first_socket
    [ws_close 0; timeout_fired 1; ws_open 1; ws_close 1]
    (AudioContext.mkCtx AudioContext.initialState [])) as (_ & _ & _ & Hc).
  split; [exact (Hc eq_refl) | reflexivity].
Defined.

End StoreSocket.

(** ** The equalizer page *)

Section EQPage.
Import EQControl.

Implicit Types (pg : EQControl.Page) (o : op).

Lemma presets_have_31_gains (n : string) (v : value) :
  presets !! n = Some v -> array_length v = Some 31%nat.
Proof.
  unfold presets, obj. simpl. intros Hv.
  repeat (rewrite lookup_insert in Hv; case_decide;
          [by simplify_eq |]).
  by rewrite lookup_empty in Hv.
Qed.

Lemma array_set_length (i : nat) (x : value) (l : list value) :
  length (array_set i x l) = Nat.max (length l) (S i).
Proof.
  unfold array_set. destruct (Nat.ltb_spec i (length l)).
  - rewrite length_insert. lia.
  - rewrite !length_app, length_replicate. simpl. lia.
Qed.

Lemma handle_keeps_31_gains o pg :
  array_length (AudioContext.eqGains (store pg)) = Some 31%nat ->
  from_ui o ->
  exists pg', handle o pg = Done pg'
    /\ array_length (AudioContext.eqGains (store pg')) = Some 31%nat.
Proof.
  intros Hlen Hui. destruct pg as [[st tr] w en sel prof ts].
  unfold store in *. simpl in *.
  destruct o as [i q | n | | d | d]; simpl in *.
  - unfold handleEQGainChange, store. simpl.
    destruct (AudioContext.eqGains st) as [| | | | |l| |]; try discriminate.
    simpl in *. eexists. split; [reflexivity |]. simpl.
    injection Hlen as Hlen. rewrite array_set_length, Hlen. f_equal. lia.
  - eexists. split; [reflexivity |]. unfold handlePresetChange. simpl.
    apply elem_of_dom in Hui as [v Hv].
    destruct (String.eqb n "custom"); simpl; [done |].
    rewrite Hv. simpl. by eapply presets_have_31_gains.
  - eexists. split; [reflexivity |]. reflexivity.
  - eexists. split; [reflexivity |]. done.
  - eexists. split; [reflexivity |]. unfold handleToggleEQ. simpl.
    by destruct en.
Qed.

(** X17: from a store that holds 31 gains, no sequence of operations the
    equalizer page offers (a slider of one of the 31 bands, a preset button,
    reset, save, toggle) raises, and the store holds 31 gains after it. *)
Theorem eq_page_keeps_31_gains (ops : list op) : forall pg,
  array_length (AudioContext.eqGains (store pg)) = Some 31%nat ->
  Forall from_ui ops ->
  exists pg', run ops pg = Done pg'
    /\ array_length (AudioContext.eqGains (store pg')) = Some 31%nat.
Proof.
  induction ops as [|o ops IH]; intros pg Hlen Hui; simpl.
  - by exists pg.
  - apply Forall_cons in Hui as [Ho Hops].
    destruct (handle_keeps_31_gains o pg Hlen Ho) as (pg1 & -> & Hlen1).
    by apply IH.
Qed.

Lemma eq_page_keeps_31_gains_witness :
  let pg := mkPage (AudioContext.mkCtx AudioContext.initialState [])
              WebSocketContext.mounted false "custom" JNull [] in
  exists pg',
    run [GainChange 3 (5 # 2); PresetChange "rock"; ToggleEQ "2024-01-01";
         GainChange 30 (-12 # 1); ResetEQ] pg = Done pg'
    /\ array_length (AudioContext.eqGains (store pg')) = Some 31%nat.
Proof.
  cbv zeta.
  apply (eq_page_keeps_31_gains
    [GainChange 3 (5 # 2); PresetChange "rock"; ToggleEQ "2024-01-01";
     GainChange 30 (-12 # 1); ResetEQ]).
  - reflexivity.
  - repeat constructor; simpl; try lia;
      try (apply elem_of_dom; by eexists).
Defined.

(** X18: moving the slider of band [index] writes the parsed number at that
    position of the gains and leaves every other band as it was; the array
    keeps its length unless the index lies past its end. *)
Theorem gain_change_touches_one_band (index : nat) (parsed : Q) pg (gains : list value) :
  AudioContext.eqGains (store pg) = JArr gains ->
  exists gains',
    handleEQGainChange index parsed pg =
      Done (with_audio (AudioContext.updateEQGains (JArr gains')) pg)
    /\ gains' !! index = Some (JNum parsed)
    /\ (forall j, j <> index -> (j < length gains)%nat -> gains' !! j = gains !! j)
    /\ length gains' = Nat.max (length gains) (S index).
Proof.
  intros Hg. unfold handleEQGainChange. rewrite Hg. simpl.
  eexists. split; [reflexivity |]. split; [| split].
  - unfold array_set. destruct (Nat.ltb_spec index (length gains)).
    + by apply list_lookup_insert_eq.
    + rewrite app_assoc.
      apply list_lookup_middle. rewrite length_app, length_replicate. lia.
  - intros j Hne Hj. unfold array_set.
    destruct (Nat.ltb_spec index (length gains)).
    + by apply list_lookup_insert_ne.
    + by apply lookup_app_l.
  - apply array_set_length.
Qed.

Lemma gain_change_touches_one_band_witness :
  let pg := mkPage (AudioContext.mkCtx AudioContext.initialState [])
              WebSocketContext.mounted false "custom" JNull [] in
  exists pg', handleEQGainChange 30 (7 # 2) pg = Done pg'
    /\ array_length (AudioContext.eqGains (store pg')) = Some 31%nat.
Proof.
  cbv zeta.
  destruct (gain_change_touches_one_band 30 (7 # 2)
    (mkPage (AudioContext.mkCtx AudioContext.initialState [])
       WebSocketContext.mounted false "custom" JNull [])
    (replicate 31 (AudioContext.int 0)) eq_refl) as (gains' & Heq & _ & _ & Hlen).
  eexists. split; [exact Heq |]. unfold store. simpl. by rewrite Hlen.
Defined.

Lemma handle_store_frame o pg :
  let s := store pg in
  let s' := store (final (handle o pg)) in
  s' = AudioContext.mkState (AudioContext.isConnected s)
         (AudioContext.isAnalyzing s) (AudioContext.isProcessing s)
         (AudioContext.audioData s) (AudioContext.analysisResults s)
         (AudioContext.eqProfile s) (AudioContext.soundstageProfile s)
         (AudioContext.userPreferences s) (AudioContext.frequencyBands s)
         (AudioContext.eqGains s') (AudioContext.realTimeData s).
Proof.
  destruct pg as [[[] tr] w en sel prof ts]. cbv zeta. unfold store.
  destruct o as [i q | n | | d | d]; simpl.
  - unfold handleEQGainChange, store. simpl.
    by destruct (array_spread _).
  - unfold handlePresetChange. simpl. by destruct (String.eqb n "custom").
  - done.
  - done.
  - unfold handleToggleEQ. simpl. by destruct en.
Qed.

(** X19: the equalizer page writes nothing to the store but [eqGains]. In
    particular Save Profile keeps the profile in the page: the store's
    [eqProfile] is never set from this page. *)
Theorem eq_page_writes_only_gains (ops : list op) : forall pg,
  let s := store pg in
  let s' := store (final (run ops pg)) in
  s' = AudioContext.mkState (AudioContext.isConnected s)
         (AudioContext.isAnalyzing s) (AudioContext.isProcessing s)
         (AudioContext.audioData s) (AudioContext.analysisResults s)
         (AudioContext.eqProfile s) (AudioContext.soundstageProfile s)
         (AudioContext.userPreferences s) (AudioContext.frequencyBands s)
         (AudioContext.eqGains s') (AudioContext.realTimeData s).
Proof.
  induction ops as [|o ops IH]; intros pg; cbv zeta.
  - simpl. unfold store. by destruct (AudioContext.store (audio pg)).
  - pose proof (handle_store_frame o pg) as Hf. cbv zeta in Hf.
    change (run (o :: ops) pg) with
      (match handle o pg with
       | Done pg' => run ops pg'
       | Thrown pg' => Thrown pg'
       end).
    destruct (handle o pg) as [pg1|pg1]; [| exact Hf].
    change (final (Done pg1)) with pg1 in Hf.
    etrans; [apply IH |]. rewrite Hf. reflexivity.
Qed.

Lemma open_socket_emit ref e (w : WebSocketContext.State) :
  WebSocketContext.open_socket ref (WebSocketContext.emit e w)
  = WebSocketContext.open_socket ref w.
Proof. by destruct w. Qed.

Lemma sendControlCommand_open (command : value) (w : WebSocketContext.State) ws :
  WebSocketContext.open_socket (WebSocketContext.controlWsRef w) w = Some ws ->
  WebSocketContext.sendControlCommand command w =
    WebSocketContext.emit (ws_send ws (stringified command)) w.
Proof.
  intros Hopen. unfold WebSocketContext.sendControlCommand. by rewrite Hopen.
Qed.

Lemma sent_emit_send (w : WebSocketContext.State) ws f :
  WebSocketContext.sent (WebSocketContext.trace
    (WebSocketContext.emit (ws_send ws f) w))
  = (WebSocketContext.sent (WebSocketContext.trace w) ++ [(ws, f)])%list.
Proof. destruct w. simpl. by rewrite sent_snoc. Qed.

(** X20: with the control socket open and the equalizer off, the toggle
    sends one [enable_eq] message whose profile carries the store's current
    frequency bands, gains and preferences (in their JSON form) under the
    name EQ_ followed by the date, and turns the flag on; the next toggle
    sends one [disable_eq] message and turns it off. *)
Theorem toggle_sends_current_store today today' pg ws :
  WebSocketContext.open_socket
    (WebSocketContext.controlWsRef (socket pg)) (socket pg) = Some ws ->
  isEQEnabled pg = false ->
  let pg1 := handleToggleEQ today pg in
  let pg2 := handleToggleEQ today' pg1 in
  exists msg prof,
    WebSocketContext.sent (WebSocketContext.trace (socket pg1)) =
      (WebSocketContext.sent (WebSocketContext.trace (socket pg))
         ++ [(ws, JsonText (JObj msg))])%list
    /\ msg !! "type" = Some (JStr "enable_eq")
    /\ msg !! "eq_profile" = Some (JObj prof)
    /\ prof !! "name" = Some (JStr ("EQ_" ++ today))
    /\ prof !! "gains" = JSON_stringify (AudioContext.eqGains (store pg))
    /\ prof !! "frequency_bands" =
         JSON_stringify (AudioContext.frequencyBands (store pg))
    /\ prof !! "user_preferences" =
         JSON_stringify (JObj (AudioContext.userPreferences (store pg)))
    /\ isEQEnabled pg1 = true
    /\ WebSocketContext.sent (WebSocketContext.trace (socket pg2)) =
         (WebSocketContext.sent (WebSocketContext.trace (socket pg1))
            ++ [(ws, JsonText (JObj {["type" := JStr "disable_eq"]}))])%list
    /\ isEQEnabled pg2 = false
    /\ store pg2 = store pg.
Proof.
  intros Hopen Hoff. cbv zeta.
  destruct pg as [a w en sel prof0 ts]. simpl in *. subst en.
  unfold handleToggleEQ. simpl.
  unfold WebSocketContext.enableEQ, WebSocketContext.disableEQ.
  rewrite (sendControlCommand_open _ w ws Hopen).
  rewrite (sendControlCommand_open _ _ ws)
    by (by rewrite open_socket_emit).
  rewrite !sent_emit_send.
  eexists _, _. split; [reflexivity |].
  split; [by vm_compute |].
  split.
  { unfold obj. simpl. rewrite lookup_omap, lookup_insert_eq. simpl.
    reflexivity. }
  unfold store. simpl.
  repeat split; try done;
    rewrite lookup_omap; unfold obj; simpl;
    repeat (rewrite lookup_insert_ne by done); by rewrite lookup_insert_eq.
Qed.

Lemma toggle_sends_current_store_witness :
  let pg := mkPage (AudioContext.mkCtx AudioContext.initialState [])
              (WebSocketContext.run [WebSocketContext.ws_open 1]
                 WebSocketContext.mounted) false "custom" JNull [] in
  exists msg prof,
    WebSocketContext.sent (WebSocketContext.trace
      (socket (handleToggleEQ "2024-01-01" pg))) = [(1%nat, JsonText (JObj msg))]
    /\ msg !! "eq_profile" = Some (JObj prof)
    /\ prof !! "gains" = Some (JArr (replicate 31 (AudioContext.int 0))).
Proof.
  cbv zeta.
  destruct (toggle_sends_current_store "2024-01-01" "2024-01-01"
    (mkPage (AudioContext.mkCtx AudioContext.initialState [])
       (WebSocketContext.run [WebSocketContext.ws_open 1]
          WebSocketContext.mounted) false "custom" JNull [])
    1%nat eq_refl eq_refl)
    as (msg & prof & Hsent & _ & Hprof & _ & Hgains & _).
  exists msg, prof. split; [exact Hsent |]. split; [exact Hprof |].
  rewrite Hgains. reflexivity.
Defined.

(** X21: the toggle does not look at the connection. With the control
    socket absent or not open nothing is sent (the provider logs its
    warning), yet the page flips its flag and shows the success toast, as if
    the command had gone out. *)
Theorem toggle_ignores_connection today pg :
  WebSocketContext.open_socket
    (WebSocketContext.controlWsRef (socket pg)) (socket pg) = None ->
  let pg' := handleToggleEQ today pg in
  WebSocketContext.sent (WebSocketContext.trace (socket pg')) =
    WebSocketContext.sent (WebSocketContext.trace (socket pg))
  /\ socket pg' =
     WebSocketContext.emit (console_warn "Control WebSocket not connected") (socket pg)
  /\ isEQEnabled pg' = negb (isEQEnabled pg)
  /\ toasts pg' =
     (toasts pg ++ [toast_success
        (JStr (if isEQEnabled pg then "EQ disabled" else "EQ enabled"))])%list.
Proof.
  intros Hclosed. cbv zeta.
  destruct pg as [a w en sel prof0 ts]. simpl in *.
  unfold handleToggleEQ. simpl.
  unfold WebSocketContext.enableEQ, WebSocketContext.disableEQ,
    WebSocketContext.sendControlCommand.
  destruct en; simpl; rewrite Hclosed; simpl;
    (split; [destruct w; simpl; by rewrite sent_snoc, app_nil_r | done]).
Qed.

Lemma toggle_ignores_connection_witness :
  let pg := mkPage (AudioContext.mkCtx AudioContext.initialState [])
              WebSocketContext.mounted false "custom" JNull [] in
  let pg' := handleToggleEQ "2024-01-01" pg in
  isEQEnabled pg' = true
  /\ WebSocketContext.sent (WebSocketContext.trace (socket pg')) = []
  /\ toasts pg' = [toast_success (JStr "EQ enabled")].
Proof.
  cbv zeta.
  destruct (toggle_ignores_connection "2024-01-01"
    (mkPage (AudioContext.mkCtx AudioContext.initialState [])
       WebSocketContext.mounted false "custom" JNull []) eq_refl)
    as (Hsent & _ & Hflag & Htoast).
  split; [exact Hflag | split; [exact Hsent | exact Htoast]].
Defined.

End EQPage.

(** ** The profile settings page *)

Section ProfilePage.
Import ProfileSettings.

Implicit Types (pg : ProfileSettings.Page).

(** X22: importing a profile file never touches the store or the socket.
    Text that is not JSON and JSON [null] give the toast Error reading
    profile file, a document without a truthy [preferences] gives Invalid
    profile file, and both leave the page as it was. A truthy [preferences]
    is taken as the page's preferences exactly as it stands, whatever its
    keys and types, and marks the page dirty; the name changes only when the
    file carries a truthy one. *)
Theorem import_profile_outcomes (parsed : option value) pg :
  let pg' := import_onload parsed pg in
  audio pg' = audio pg
  /\ socket pg' = socket pg
  /\ (parsed = None \/ parsed = Some JNull ->
      pg' = toast (toast_error (JStr "Error reading profile file")) pg)
  /\ (forall data prefs,
        parsed = Some data -> get_field data "preferences" = Some prefs ->
        truthy prefs = false ->
        pg' = toast (toast_error (JStr "Invalid profile file")) pg)
  /\ (forall data prefs,
        parsed = Some data -> get_field data "preferences" = Some prefs ->
        truthy prefs = true ->
        preferences pg' = prefs
        /\ isDirty pg' = true
        /\ profileName pg' =
           (let name := default JUndefined (get_field data "name") in
            if truthy name then name else profileName pg)
        /\ toasts pg' = (toasts pg ++ [toast_success (JStr "Profile imported")])%list).
Proof.
  cbv zeta. unfold import_onload, try_catch.
  split; [| split; [| split; [| split]]].
  - destruct parsed as [data|]; [| done].
    destruct (get_field data "preferences") as [prefs|]; [| done].
    destruct (truthy prefs); [| done].
    by destruct (truthy (default JUndefined (get_field data "name"))).
  - destruct parsed as [data|]; [| done].
    destruct (get_field data "preferences") as [prefs|]; [| done].
    destruct (truthy prefs); [| done].
    by destruct (truthy (default JUndefined (get_field data "name"))).
  - by intros [-> | ->].
  - intros data prefs -> Hp Hf. by rewrite Hp, Hf.
  - intros data prefs -> Hp Ht. rewrite Hp, Ht.
    by destruct (truthy (default JUndefined (get_field data "name"))).
Qed.

Lemma import_profile_outcomes_witness :
  let pg := init (AudioContext.mkCtx AudioContext.initialState [])
              WebSocketContext.mounted in
  let file := JObj (obj [("preferences", JObj (obj [("volume", JStr "loud")]));
                         ("name", JStr EmptyString)]) in
  preferences (import_onload (Some file) pg) = JObj (obj [("volume", JStr "loud")])
  /\ profileName (import_onload (Some file) pg) = JStr "My Profile"
  /\ import_onload (Some (JObj (obj [("preferences", JNum 0)]))) pg
     = toast (toast_error (JStr "Invalid profile file")) pg.
Proof.
  cbv zeta.
  destruct (import_profile_outcomes
    (Some (JObj (obj [("preferences", JObj (obj [("volume", JStr "loud")]));
                      ("name", JStr EmptyString)])))
    (init (AudioContext.mkCtx AudioContext.initialState []) WebSocketContext.mounted))
    as (_ & _ & _ & _ & Hok).
  destruct (Hok _ _ eq_refl eq_refl eq_refl) as (Hp & _ & Hn & _).
  destruct (import_profile_outcomes
    (Some (JObj (obj [("preferences", JNum 0)])))
    (init (AudioContext.mkCtx AudioContext.initialState []) WebSocketContext.mounted))
    as (_ & _ & _ & Hbad & _).
  split; [exact Hp | split; [exact Hn |]].
  exact (Hbad _ _ eq_refl eq_refl eq_refl).
Defined.

(** X23: Save merges the page's preferences into the store and, after the
    render that follows, the page shows the store's preferences again and is
    clean. When the page's preferences cover every key the store had, the
    store then holds exactly what was saved; and with the control socket
    open the same preferences go out in one [set_preferences] message. *)
Theorem save_round_trip pg :
  let pg' := save pg in
  AudioContext.userPreferences (store pg') =
    own_props (preferences pg) ∪ AudioContext.userPreferences (store pg)
  /\ preferences pg' = JObj (AudioContext.userPreferences (store pg'))
  /\ isDirty pg' = false
  /\ (dom (AudioContext.userPreferences (store pg)) ⊆ dom (own_props (preferences pg)) ->
      AudioContext.userPreferences (store pg') = own_props (preferences pg))
  /\ (forall ws,
        WebSocketContext.open_socket
          (WebSocketContext.controlWsRef (socket pg)) (socket pg) = Some ws ->
        exists msg,
          WebSocketContext.sent (WebSocketContext.trace (socket pg')) =
            (WebSocketContext.sent (WebSocketContext.trace (socket pg))
               ++ [(ws, JsonText (JObj msg))])%list
          /\ msg !! "type" = Some (JStr "set_preferences")
          /\ msg !! "preferences" = JSON_stringify (preferences pg)).
Proof.
  cbv zeta. destruct pg as [[st tr] w prefs name dirty ts].
  unfold save, sync_effect, handleSavePreferences, store. simpl.
  split; [done |]. split; [done |]. split; [done |]. split.
  - intros Hdom. unfold spread. apply map_eq. intros k.
    rewrite lookup_union.
    destruct (own_props prefs !! k) as [v|] eqn:Hk.
    + by destruct (AudioContext.userPreferences st !! k).
    + apply not_elem_of_dom in Hk.
      assert (Hk' : k ∉ dom (AudioContext.userPreferences st)) by set_solver.
      apply not_elem_of_dom in Hk'. by rewrite Hk'.
  - intros ws Hopen.
    unfold WebSocketContext.setPreferences, WebSocketContext.sendControlCommand.
    rewrite Hopen. unfold WebSocketContext.send.
    eexists. split.
    { destruct w. simpl. rewrite sent_snoc. reflexivity. }
    split.
    + rewrite lookup_omap. unfold obj. simpl.
      rewrite lookup_insert_ne by done. by rewrite lookup_insert_eq.
    + rewrite lookup_omap. unfold obj. simpl. by rewrite lookup_insert_eq.
Qed.

Lemma save_round_trip_witness :
  let pg := handlePreferenceChange "bass_preference" (AudioContext.dec 1 2)
              (sync_effect (init (AudioContext.mkCtx AudioContext.initialState [])
                 (WebSocketContext.run [WebSocketContext.ws_open 1]
                    WebSocketContext.mounted))) in
  AudioContext.userPreferences (store (save pg)) = own_props (preferences pg)
  /\ AudioContext.userPreferences (store (save pg)) !! "bass_preference"
     = Some (AudioContext.dec 1 2)
  /\ exists msg,
       WebSocketContext.sent (WebSocketContext.trace (socket (save pg)))
       = [(1%nat, JsonText (JObj msg))]
       /\ msg !! "preferences" = Some (preferences pg).
Proof.
  cbv zeta.
  destruct (save_round_trip
    (handlePreferenceChange "bass_preference" (AudioContext.dec 1 2)
       (sync_effect (init (AudioContext.mkCtx AudioContext.initialState [])
          (WebSocketContext.run [WebSocketContext.ws_open 1]
             WebSocketContext.mounted)))))
    as (_ & _ & _ & Hdom & Hsend).
  assert (Heq := Hdom ltac:(vm_compute; set_solver)).
  split; [exact Heq |]. split; [rewrite Heq; reflexivity |].
  destruct (Hsend 1%nat eq_refl) as (msg & Hsent & _ & Hp).
  exists msg. split; [exact Hsent |]. rewrite Hp. reflexivity.
Defined.

(** X24: Reset All ends with the page marked clean and its preferences at
    the defaults, although nothing was saved: the store keeps the
    preferences it had and nothing is sent to the server. *)
Theorem reset_all_leaves_store_preferences pg :
  let pg' := handleResetAll pg in
  isDirty pg' = false
  /\ preferences pg' = defaultPreferences
  /\ profileName pg' = JStr "My Profile"
  /\ AudioContext.userPreferences (store pg') = AudioContext.userPreferences (store pg)
  /\ AudioContext.eqGains (store pg') = AudioContext.eqGains (store pg)
  /\ AudioContext.analysisResults (store pg') = JNull
  /\ socket pg' = socket pg
  /\ toasts pg' = (toasts pg ++ [toast_success (JStr "Preferences reset to defaults");
                                 toast_success (JStr "All settings reset")])%list.
Proof.
  cbv zeta. destruct pg as [[st tr] w prefs name dirty ts].
  unfold handleResetAll, store. simpl. by rewrite <- app_assoc.
Qed.

End ProfilePage.

(** ** The monitor page and the dashboard *)

Section MonitorPage.
Import RealTimeMonitor.

Implicit Types (pg : RealTimeMonitor.Page).

Lemma slice_last_length {A : Type} (n : nat) (l : list A) :
  length (slice_last n l) = Nat.min n (length l).
Proof. unfold slice_last. rewrite length_drop. lia. Qed.

Lemma slice_last_snoc {A : Type} (n : nat) (l : list A) (x : A) :
  (0 < n)%nat -> last (slice_last n (l ++ [x])) = Some x.
Proof.
  intros Hn. unfold slice_last. rewrite last_lookup, length_drop, lookup_drop.
  rewrite length_app. simpl.
  replace (length l + 1 - n + Init.Nat.pred (length l + 1 - (length l + 1 - n)))%nat
    with (length l) by lia.
  by apply list_lookup_middle.
Qed.

Lemma addLogEntry_log now message pg :
  logEntries (addLogEntry now message pg)
  = slice_last 50 (logEntries pg ++ [(now, message)]).
Proof. by destruct pg. Qed.

Lemma handle_log o now pg :
  logEntries (handle o now pg) = logEntries pg
  \/ exists l message,
       logEntries (handle o now pg) = slice_last 50 (l ++ [(now, message)]).
Proof.
  destruct pg as [a w m l lu ts].
  destruct o;
    try (right; do 2 eexists; cbn -[slice_last app]; reflexivity).
  unfold handle, realTimeData_effect.
  match goal with
  | |- context [bool_decide ?P] => destruct (bool_decide P)
  end; [by left |].
  right. do 2 eexists. cbn -[slice_last app]. reflexivity.
Qed.

(** X25: the monitor's log is a window of the last 50 entries. Adding an
    entry puts it last, keeps the earlier ones in order and drops the oldest
    once there would be more than 50; so after any sequence of the page's
    operations the log holds at most 50 entries. *)
Theorem monitor_log_is_bounded (ops : list (op * string)) pg now message :
  (length (logEntries pg) <= 50)%nat ->
  (length (logEntries (run ops pg)) <= 50)%nat
  /\ length (logEntries (addLogEntry now message pg))
     = Nat.min 50 (S (length (logEntries pg)))
  /\ last (logEntries (addLogEntry now message pg)) = Some (now, message)
  /\ logEntries (addLogEntry now message pg)
       `suffix_of` (logEntries pg ++ [(now, message)])%list.
Proof.
  intros Hlen. split; [| split; [| split]].
  - revert pg Hlen. induction ops as [|[o t] ops IH]; intros pg Hlen; simpl;
      [done |].
    apply IH. simpl.
    destruct (handle_log o t pg) as [-> | (l & m & ->)]; [done |].
    rewrite slice_last_length. lia.
  - rewrite addLogEntry_log, slice_last_length, length_app. cbn [length]. lia.
  - rewrite addLogEntry_log. apply slice_last_snoc. lia.
  - rewrite addLogEntry_log. apply suffix_drop.
Qed.

Lemma monitor_log_is_bounded_witness :
  let pg := mkPage (AudioContext.mkCtx AudioContext.initialState [])
              WebSocketContext.mounted false [] None [] in
  let pg' := run (replicate 60 (PingServer, "12:00:00")) pg in
  (length (logEntries pg') <= 50)%nat
  /\ last (logEntries (addLogEntry "12:00:01" "Analysis toggled" pg'))
     = Some ("12:00:01", "Analysis toggled").
Proof.
  cbv zeta.
  assert (H0 : (length (logEntries (mkPage
    (AudioContext.mkCtx AudioContext.initialState [])
    WebSocketContext.mounted false [] None [])) <= 50)%nat) by (simpl; lia).
  destruct (monitor_log_is_bounded (replicate 60 (PingServer, "12:00:00"))
    _ "12:00:01" "Analysis toggled" H0) as (Hb & _).
  split; [exact Hb |].
  destruct (monitor_log_is_bounded [] _ "12:00:01" "Analysis toggled" Hb)
    as (_ & _ & Hl & _).
  exact Hl.
Defined.

(** X26: Reset empties the log and then logs itself, so exactly one entry
    is left; it stops monitoring, resets the store's audio state and asks
    the server to clear its buffer, which goes out as the one string
    clear_buffer when the telemetry socket is open and not at all
    otherwise. *)
Theorem monitor_reset now pg :
  let pg' := handleReset now pg in
  logEntries pg' = [(now, "Monitor reset")]
  /\ isMonitoring pg' = false
  /\ AudioContext.store (audio pg')
     = AudioContext.audioReducer (AudioContext.store (audio pg))
         (AudioContext.mkAction "RESET_AUDIO_STATE" JUndefined)
  /\ socket pg' =
     match WebSocketContext.open_socket
             (WebSocketContext.audioWsRef (socket pg)) (socket pg) with
     | Some ws => WebSocketContext.emit (ws_send ws (Text "clear_buffer")) (socket pg)
     | None => socket pg
     end.
Proof.
  cbv zeta. destruct pg as [a w m l lu ts].
  unfold handleReset. simpl. repeat split.
Qed.

(** X27: the monitor logs a request as sent whether or not it went out:
    with the telemetry socket absent or not open, Ping, Get Status and
    Toggle Analysis write nothing and log nothing in the provider, and the
    page's log still ends with the entry that says the request was sent. *)
Theorem monitor_logs_unsent_requests now pg :
  WebSocketContext.open_socket
    (WebSocketContext.audioWsRef (socket pg)) (socket pg) = None ->
  socket (handlePing now pg) = socket pg
  /\ last (logEntries (handlePing now pg)) = Some (now, "Ping sent to server")
  /\ socket (handleGetStatus now pg) = socket pg
  /\ last (logEntries (handleGetStatus now pg)) = Some (now, "Status request sent")
  /\ socket (handleToggleAnalysis now pg) = socket pg
  /\ last (logEntries (handleToggleAnalysis now pg)) = Some (now, "Analysis toggled").
Proof.
  intros Hclosed. destruct pg as [a w m l lu ts]. simpl in *.
  unfold handlePing, handleGetStatus, handleToggleAnalysis,
    WebSocketContext.ping, WebSocketContext.getStatus,
    WebSocketContext.toggleAnalysis. simpl. rewrite Hclosed.
  repeat split; apply slice_last_snoc; lia.
Qed.

Lemma monitor_logs_unsent_requests_witness :
  let pg := mkPage (AudioContext.mkCtx AudioContext.initialState [])
              WebSocketContext.mounted false [] None [] in
  WebSocketContext.trace (socket (handlePing "12:00:00" pg)) = []
  /\ logEntries (handlePing "12:00:00" pg) = [("12:00:00", "Ping sent to server")].
Proof.
  cbv zeta.
  destruct (monitor_logs_unsent_requests "12:00:00"
    (mkPage (AudioContext.mkCtx AudioContext.initialState [])
       WebSocketContext.mounted false [] None []) eq_refl) as (Hs & _).
  split; [by rewrite Hs | reflexivity].
Defined.

End MonitorPage.

Section DashboardPage.
Import Dashboard.

Implicit Types (pg : Dashboard.Page).

(** X28: on the dashboard the play button and the store stay in step:
    when [isAnalyzing] equals [isPlaying] to begin with, it does so after
    any sequence of Play/Pause, Reset, Toggle Analysis and status ticks. *)
Theorem dashboard_play_state_in_step (ops : list op) : forall pg,
  AudioContext.isAnalyzing (AudioContext.store (audio pg)) = JBool (isPlaying pg) ->
  AudioContext.isAnalyzing (AudioContext.store (audio (run ops pg)))
  = JBool (isPlaying (run ops pg)).
Proof.
  induction ops as [|o ops IH]; intros pg Hpg; simpl; [done |].
  apply IH. destruct pg as [[st tr] w playing ts]. simpl in *.
  destruct o; simpl; try done.
  unfold handlePlayPause. simpl. by destruct playing.
Qed.

Lemma dashboard_play_state_in_step_witness :
  let pg := mkPage (AudioContext.mkCtx AudioContext.initialState [])
              WebSocketContext.mounted false [] in
  let pg' := run [PlayPause; StatusTick; ToggleAnalysis; PlayPause; PlayPause; ResetAll] pg in
  AudioContext.isAnalyzing (AudioContext.store (audio pg')) = JBool (isPlaying pg').
Proof.
  cbv zeta.
  exact (dashboard_play_state_in_step
    [PlayPause; StatusTick; ToggleAnalysis; PlayPause; PlayPause; ResetAll]
    (mkPage (AudioContext.mkCtx AudioContext.initialState [])
       WebSocketContext.mounted false []) eq_refl).
Defined.

End DashboardPage.
